(** * The conversation pipeline of ChatbotPage.tsx

    A shallow embedding of the React component [ChatbotPage]
    (src/components/ChatbotPage.tsx): its state, its event handlers with the
    values they capture from the render that created them, the suspended
    [async] handlers, and the page's reactions to user and collaborator
    events. *)

From Stdlib Require Import String Ascii List Bool Arith.
Import ListNotations.
Local Open Scope string_scope.
Local Open Scope list_scope.
Local Open Scope nat_scope.

(** ** JavaScript strings

    A string is the sequence of bytes of its UTF-8 text, as the literals of
    the source file are. *)

Module JS.

(** A string is truthy when it is not empty. *)
Definition truthy (s : string) : bool :=
  match s with
  | EmptyString => false
  | String _ _ => true
  end.

(** [a || b] where [a] may be [undefined]. *)
Definition or_else (a : option string) (b : string) : string :=
  match a with
  | Some s => if truthy s then s else b
  | None => b
  end.

(** White space and line terminators of ECMAScript, by the length of
    their UTF-8 encoding: U+0009..U+000D and U+0020; U+00A0; U+1680,
    U+2000..U+200A, U+2028, U+2029, U+202F, U+205F, U+3000, U+FEFF. *)
Definition ws1 (a : ascii) : bool :=
  let x := nat_of_ascii a in
  ((9 <=? x) && (x <=? 13)) || (x =? 32).

Definition ws2 (a b : ascii) : bool :=
  (nat_of_ascii a =? 194) && (nat_of_ascii b =? 160).

Definition ws3 (a b c : ascii) : bool :=
  let x := nat_of_ascii a in
  let y := nat_of_ascii b in
  let z := nat_of_ascii c in
  ((x =? 225) && (y =? 154) && (z =? 128))
  || ((x =? 226) && (y =? 128)
      && (((128 <=? z) && (z <=? 138)) || (z =? 168) || (z =? 169) || (z =? 175)))
  || ((x =? 226) && (y =? 129) && (z =? 159))
  || ((x =? 227) && (y =? 128) && (z =? 128))
  || ((x =? 239) && (y =? 187) && (z =? 191)).

(** Drops the white space at the front of a byte list; [w2] and [w3]
    recognise the two- and three-byte white space. *)
Fixpoint strip (w2 : ascii -> ascii -> bool)
    (w3 : ascii -> ascii -> ascii -> bool) (l : list ascii) : list ascii :=
  match l with
  | [] => []
  | a :: l1 =>
    if ws1 a then strip w2 w3 l1
    else
      match l1 with
      | b :: l2 =>
        if w2 a b then strip w2 w3 l2
        else
          match l2 with
          | c :: l3 => if w3 a b c then strip w2 w3 l3 else l
          | [] => l
          end
      | [] => l
      end
  end.

(** [String.prototype.trim]: the front is stripped, then the back, read
    backwards. *)
Definition trim (s : string) : string :=
  let front := strip ws2 ws3 (list_ascii_of_string s) in
  let back :=
    strip (fun a b => ws2 b a) (fun a b c => ws3 c b a) (rev front) in
  string_of_list_ascii (rev back).

(** [String.prototype.includes]. *)
Definition includes (s sub : string) : bool :=
  match index 0 sub s with
  | Some _ => true
  | None => false
  end.

End JS.

(** ** Data model *)

Inductive Role : Type := user | assistant | system.

Record Message : Type := mkMessage { role : Role; content : string }.

(** The React state of the component, one field per [useState].  A value
    of this type is also what a handler captures: the handlers of a render
    read the state of that render, not the state at the time they run. *)
Record State : Type := mkState {
  messages : list Message;
  inputText : string;
  isLoading : bool;
  apiKey : string;
  isSpeaking : bool;
  speechEnabled : bool
}.

(** The content of the system message the conversation starts with. *)
Definition systemPrompt : string :=
  "You are a therapist. Speak like a real person in a conversationâ€”empathetic, relaxed, and human. No bold text or bullet points. Keep your responses to 3â€“4 sentences. Imagine you're sitting across from someone in a calm space, just listening and gently responding.

Here is a sample exchange to guide your tone and style:
User: I have been feeling really isolated lately.
Bot: I am here to listen, Sarah. Whatâ€™s been going on?
User: Ever since moving for grad school, I just... I spend most nights alone. Everyone seems to have their circles already. I scroll through social media and see people having these amazing times together, and I am just... here.
Bot: Itâ€™s a big transition. What do you miss most about your previous support system?
User: Just having someone to share the small things with, you know? Like when something funny happens during the day, or when I am struggling with a project... there is no one to just grab coffee with and talk.
Bot: That sounds really difficult. What small step do you think might help you feel more connected?

Keep it conversational and humanâ€”like you are talking with a friend who needs support.".

Definition systemMessage : Message :=
  {| role := system; content := systemPrompt |}.

Definition initialState : State :=
  {| messages := [systemMessage];
     inputText := "";
     isLoading := false;
     apiKey := "";
     isSpeaking := false;
     speechEnabled := true |}.

(** A captured audio buffer, by a handle. *)
Definition AudioBuffer : Type := nat.

(** The request [axios.post] is given: address, body and headers. *)
Record Request : Type := mkRequest {
  url : string;
  model : string;
  body_messages : list Message;
  headers : list (string * string)
}.

(** [response.data] as the handler reads it:
    [response.data.choices[0].message.content]. *)
Record Choice : Type := mkChoice { message : Message }.

Record ResponseData : Type := mkResponseData { choices : list Choice }.

(** How the promise of [axios.post] settles: fulfilled with a response, or
    rejected (no answer, or a status outside 2xx). *)
Inductive AxiosOutcome : Type :=
| Fulfilled (data : ResponseData)
| Rejected.

(** How the promise of [transcriber.start] settles. *)
Inductive TranscriberOutcome : Type :=
| Transcribed (text : string)
| TranscriptionFailed.

Record Voice : Type := mkVoice { name : string }.

Record Utterance : Type := mkUtterance {
  utterance_text : string;
  utterance_voice : option Voice
}.

(** An [async] handler suspended at its [await], with the state it
    captured. *)
Inductive Task : Type :=
| AwaitTranscriber (env : State) (audioBuffer : AudioBuffer)
| AwaitAxios (env : State) (request : Request).

(** What the page does to its collaborators and to the conversation, in
    the order it does it. *)
Inductive Effect : Type :=
| ESetMessages (now : list Message)
| ETranscriberStart (audioBuffer : AudioBuffer)
| ETranscriberSettled (outcome : TranscriberOutcome)
| EAxiosPost (request : Request)
| EAxiosSettled (outcome : AxiosOutcome)
| EAlert (text : string)
| EConsoleError (text : string)
| ESynthCancel
| ESynthSpeak (utterance : Utterance)
| EStorageSet (key value : string).

(** The page: the React state, the state of the hooks and of the browser,
    the suspended handlers and the effects so far. *)
Record World : Type := mkWorld {
  ui : State;
  isRecording : bool;
  isBusy : bool;
  isModelLoading : bool;
  synth_queue : list Utterance;
  voices : list Voice;
  storage : option string;
  tasks : list Task;
  log : list Effect
}.

(** ** State updates *)

Definition with_messages (f : list Message -> list Message) (s : State) : State :=
  {| messages := f (messages s);
     inputText := inputText s;
     isLoading := isLoading s;
     apiKey := apiKey s;
     isSpeaking := isSpeaking s;
     speechEnabled := speechEnabled s |}.

Definition with_inputText (v : string) (s : State) : State :=
  {| messages := messages s;
     inputText := v;
     isLoading := isLoading s;
     apiKey := apiKey s;
     isSpeaking := isSpeaking s;
     speechEnabled := speechEnabled s |}.

Definition with_isLoading (v : bool) (s : State) : State :=
  {| messages := messages s;
     inputText := inputText s;
     isLoading := v;
     apiKey := apiKey s;
     isSpeaking := isSpeaking s;
     speechEnabled := speechEnabled s |}.

Definition with_apiKey (v : string) (s : State) : State :=
  {| messages := messages s;
     inputText := inputText s;
     isLoading := isLoading s;
     apiKey := v;
     isSpeaking := isSpeaking s;
     speechEnabled := speechEnabled s |}.

Definition with_isSpeaking (v : bool) (s : State) : State :=
  {| messages := messages s;
     inputText := inputText s;
     isLoading := isLoading s;
     apiKey := apiKey s;
     isSpeaking := v;
     speechEnabled := speechEnabled s |}.

Definition with_speechEnabled (f : bool -> bool) (s : State) : State :=
  {| messages := messages s;
     inputText := inputText s;
     isLoading := isLoading s;
     apiKey := apiKey s;
     isSpeaking := isSpeaking s;
     speechEnabled := f (speechEnabled s) |}.

Definition on_ui (f : State -> State) (w : World) : World :=
  {| ui := f (ui w);
     isRecording := isRecording w;
     isBusy := isBusy w;
     isModelLoading := isModelLoading w;
     synth_queue := synth_queue w;
     voices := voices w;
     storage := storage w;
     tasks := tasks w;
     log := log w |}.

Definition with_isRecording (v : bool) (w : World) : World :=
  {| ui := ui w;
     isRecording := v;
     isBusy := isBusy w;
     isModelLoading := isModelLoading w;
     synth_queue := synth_queue w;
     voices := voices w;
     storage := storage w;
     tasks := tasks w;
     log := log w |}.

Definition with_isBusy (v : bool) (w : World) : World :=
  {| ui := ui w;
     isRecording := isRecording w;
     isBusy := v;
     isModelLoading := isModelLoading w;
     synth_queue := synth_queue w;
     voices := voices w;
     storage := storage w;
     tasks := tasks w;
     log := log w |}.

Definition with_isModelLoading (v : bool) (w : World) : World :=
  {| ui := ui w;
     isRecording := isRecording w;
     isBusy := isBusy w;
     isModelLoading := v;
     synth_queue := synth_queue w;
     voices := voices w;
     storage := storage w;
     tasks := tasks w;
     log := log w |}.

Definition with_synth_queue (q : list Utterance) (w : World) : World :=
  {| ui := ui w;
     isRecording := isRecording w;
     isBusy := isBusy w;
     isModelLoading := isModelLoading w;
     synth_queue := q;
     voices := voices w;
     storage := storage w;
     tasks := tasks w;
     log := log w |}.

Definition with_storage (v : option string) (w : World) : World :=
  {| ui := ui w;
     isRecording := isRecording w;
     isBusy := isBusy w;
     isModelLoading := isModelLoading w;
     synth_queue := synth_queue w;
     voices := voices w;
     storage := v;
     tasks := tasks w;
     log := log w |}.

Definition with_tasks (ts : list Task) (w : World) : World :=
  {| ui := ui w;
     isRecording := isRecording w;
     isBusy := isBusy w;
     isModelLoading := isModelLoading w;
     synth_queue := synth_queue w;
     voices := voices w;
     storage := storage w;
     tasks := ts;
     log := log w |}.

Definition emit (e : Effect) (w : World) : World :=
  {| ui := ui w;
     isRecording := isRecording w;
     isBusy := isBusy w;
     isModelLoading := isModelLoading w;
     synth_queue := synth_queue w;
     voices := voices w;
     storage := storage w;
     tasks := tasks w;
     log := log w ++ [e] |}.

(** ** Statements

    A statement of a handler changes the page; statements run in
    sequence. *)

Definition Action : Type := World -> World.

Definition skip : Action := fun w => w.

Definition seq (a b : Action) : Action := fun w => b (a w).

Notation "a ;; b" := (seq a b) (at level 61, right associativity).

Definition when (cond : World -> bool) (a : Action) : Action :=
  fun w => if cond w then a w else w.

(** The setters of [useState]; [setMessages] and [setSpeechEnabled] take
    the updater function, which is given the state of the moment. *)
Definition setMessages (f : list Message -> list Message) : Action :=
  fun w => emit (ESetMessages (f (messages (ui w)))) (on_ui (with_messages f) w).

Definition setInputText (v : string) : Action := on_ui (with_inputText v).

Definition setIsLoading (v : bool) : Action := on_ui (with_isLoading v).

Definition setApiKey (v : string) : Action := on_ui (with_apiKey v).

Definition setIsSpeaking (v : bool) : Action := on_ui (with_isSpeaking v).

Definition setSpeechEnabled (f : bool -> bool) : Action :=
  on_ui (with_speechEnabled f).

Definition alert (text : string) : Action := emit (EAlert text).

Definition console_error (text : string) : Action := emit (EConsoleError text).

(** [window.speechSynthesis]: [speaking] holds while an utterance is
    queued or spoken; [cancel] empties the queue; [speak] queues. *)
Definition speaking (w : World) : bool :=
  match synth_queue w with
  | [] => false
  | _ :: _ => true
  end.

Definition synth_cancel : Action :=
  fun w => emit ESynthCancel (with_synth_queue [] w).

Definition synth_speak (u : Utterance) : Action :=
  fun w => emit (ESynthSpeak u) (with_synth_queue (synth_queue w ++ [u]) w).

(** [axios.post], up to the [await]: the request leaves and the handler
    is suspended with what it captured. *)
Definition axios_post (env : State) (request : Request) : Action :=
  fun w => with_tasks (tasks w ++ [AwaitAxios env request]) (emit (EAxiosPost request) w).

(** Modelled from the spec: the hook [useTranscriber] (hooks/useTranscriber
    is not among the sources).  [start] asynchronously yields the recognized
    text, and [isBusy] is the busy status the hook exposes, set while a
    transcription runs. *)
Definition transcriber_start (env : State) (audioBuffer : AudioBuffer) : Action :=
  fun w =>
    with_tasks (tasks w ++ [AwaitTranscriber env audioBuffer])
      (with_isBusy true (emit (ETranscriberStart audioBuffer) w)).

(** ** The handlers

    Each handler takes [env], the state of the render that created it. *)

Definition isFemale (voice : Voice) : bool :=
  JS.includes (name voice) "female"
  || JS.includes (name voice) "Female"
  || JS.includes (name voice) "Google UK English Female".

Definition speakText (env : State) (text : string) : Action :=
  if negb (speechEnabled env) then skip
  else
    when speaking synth_cancel ;;
    (fun w =>
       let voice :=
         match voices w with
         | [] => None
         | first :: _ =>
           Some (match find isFemale (voices w) with
                 | Some femaleVoice => femaleVoice
                 | None => first
                 end)
         end in
       synth_speak {| utterance_text := text; utterance_voice := voice |} w).

Definition toggleSpeech (env : State) : Action :=
  setSpeechEnabled negb ;;
  when (fun w => speechEnabled env && speaking w)
    (synth_cancel ;; setIsSpeaking false).

Definition completionsUrl : string := "https://api.openai.com/v1/chat/completions".

Definition modelId : string := "gpt-4o-mini".

Definition sendFailureText : string :=
  "Error: Unable to get a response from OpenAI API.".

Definition transcriptionFailureText : string :=
  "Error: Unable to transcribe audio.".

(** [handleSend] up to its [await]. *)
Definition handleSend (env : State) (messageText : option string) : Action :=
  let text := JS.or_else messageText (inputText env) in
  if negb (JS.truthy (JS.trim text)) then skip
  else if negb (JS.truthy (apiKey env)) then
    alert "Please enter your OpenAI API key first."
  else
    let newMessage := {| role := user; content := text |} in
    let updatedMessages := messages env ++ [newMessage] in
    setMessages (fun _ => updatedMessages) ;;
    setInputText "" ;;
    setIsLoading true ;;
    axios_post env
      {| url := completionsUrl;
         model := modelId;
         body_messages := updatedMessages;
         headers := [("Content-Type", "application/json");
                     ("Authorization", ("Bearer " ++ apiKey env)%string)] |}.

(** [handleSend] from its [await] on: the rest of the [try], the [catch]
    and the [finally].  Reading [choices[0].message] of a response without
    choices throws, which the [catch] receives. *)
Definition handleSend_resume (env : State) (outcome : AxiosOutcome) : Action :=
  let failed :=
    console_error "Error communicating with OpenAI:" ;;
    setMessages (fun prevMessages =>
      prevMessages ++ [{| role := assistant; content := sendFailureText |}]) in
  (match outcome with
   | Fulfilled data =>
     match choices data with
     | first :: _ =>
       let assistantResponse := content (message first) in
       let assistantMessage := {| role := assistant; content := assistantResponse |} in
       setMessages (fun prevMessages => prevMessages ++ [assistantMessage]) ;;
       speakText env assistantResponse
     | [] => failed
     end
   | Rejected => failed
   end) ;;
  setIsLoading false.

(** [handleTranscription] up to its [await]. *)
Definition handleTranscription (env : State) (audioBuffer : AudioBuffer) : Action :=
  setIsLoading true ;;
  transcriber_start env audioBuffer.

(** [handleTranscription] from its [await] on.  [handleSend] is called and
    not awaited: it runs up to its own [await], and the [finally] follows
    at once. *)
Definition handleTranscription_resume (env : State) (outcome : TranscriberOutcome)
    : Action :=
  (match outcome with
   | Transcribed transcribedText =>
     setInputText transcribedText ;;
     handleSend env (Some transcribedText)
   | TranscriptionFailed =>
     console_error "Transcription error:" ;;
     setMessages (fun prevMessages =>
       prevMessages ++ [{| role := assistant; content := transcriptionFailureText |}])
   end) ;;
  setIsLoading false.

Definition handleApiKeyChange (newApiKey : string) : Action :=
  setApiKey newApiKey ;;
  (fun w => emit (EStorageSet "openai_api_key" newApiKey)
              (with_storage (Some newApiKey) w)).

(** Modelled from the spec: the hook [useAudioRecorder]
    (hooks/useAudioRecorder is not among the sources) exposes start and stop
    and yields one captured audio buffer when recording ends. *)
Definition startRecording : Action := with_isRecording true.

Definition stopRecording : Action := with_isRecording false.

(** ** The rendered page *)

(** [messages.slice(1)], the messages the page shows. *)
Definition rendered (s : State) : list Message := skipn 1 (messages s).

Definition inputDisabled (w : World) : bool :=
  isLoading (ui w) || isRecording w || isBusy w.

Definition recordDisabled (w : World) : bool :=
  isLoading (ui w) || isModelLoading w || isBusy w.

Definition sendDisabled (w : World) : bool :=
  isLoading (ui w) || negb (JS.truthy (JS.trim (inputText (ui w))))
  || isRecording w || isBusy w.

(** ** The page as a transition system *)

(** What happens to the page: the user acts on a control, or a
    collaborator calls back.  A click runs the handler of the render on
    screen, which captured the present state. *)
Inductive Event : Type :=
| ChangeInput (value : string)
| ClickSend
| ClickRecord (captured : AudioBuffer)
| ChangeApiKey (value : string)
| ClickSpeechToggle
| ClickSpeaker (index : nat)
| TranscriberSettles (task : nat) (outcome : TranscriberOutcome)
| AxiosSettles (task : nat) (outcome : AxiosOutcome)
| UtteranceStarts
| UtteranceEnds
| UtteranceFails
| ModelLoading (loading : bool).

Fixpoint remove_nth {A : Type} (n : nat) (l : list A) : list A :=
  match l, n with
  | [], _ => []
  | _ :: l', 0 => l'
  | x :: l', S n' => x :: remove_nth n' l'
  end.

(** [handleRecordButtonClick]; when recording stops the recorder yields
    [captured], and the effect on [audioData] runs [handleTranscription]
    of the render it belongs to. *)
Definition handleRecordButtonClick (captured : AudioBuffer) : Action :=
  fun w =>
    if isRecording w then
      (stopRecording ;; (fun w' => handleTranscription (ui w') captured w')) w
    else startRecording w.

(** One event; [None] when the control is disabled or the collaborator
    has nothing to call back for. *)
Definition step (w : World) (e : Event) : option World :=
  match e with
  | ChangeInput value =>
    if inputDisabled w then None else Some (setInputText value w)
  | ClickSend =>
    if sendDisabled w then None else Some (handleSend (ui w) None w)
  | ClickRecord captured =>
    if recordDisabled w then None else Some (handleRecordButtonClick captured w)
  | ChangeApiKey value => Some (handleApiKeyChange value w)
  | ClickSpeechToggle => Some (toggleSpeech (ui w) w)
  | ClickSpeaker index =>
    match nth_error (rendered (ui w)) index with
    | Some msg =>
      match role msg with
      | assistant => Some (speakText (ui w) (content msg) w)
      | _ => None
      end
    | None => None
    end
  | TranscriberSettles task outcome =>
    match nth_error (tasks w) task with
    | Some (AwaitTranscriber env _) =>
      Some (handleTranscription_resume env outcome
              (emit (ETranscriberSettled outcome)
                 (with_isBusy false (with_tasks (remove_nth task (tasks w)) w))))
    | _ => None
    end
  | AxiosSettles task outcome =>
    match nth_error (tasks w) task with
    | Some (AwaitAxios env _) =>
      Some (handleSend_resume env outcome
              (emit (EAxiosSettled outcome)
                 (with_tasks (remove_nth task (tasks w)) w)))
    | _ => None
    end
  | UtteranceStarts =>
    if speaking w then Some (setIsSpeaking true w) else None
  | UtteranceEnds | UtteranceFails =>
    match synth_queue w with
    | _ :: rest => Some (setIsSpeaking false (with_synth_queue rest w))
    | [] => None
    end
  | ModelLoading loading => Some (with_isModelLoading loading w)
  end.

Fixpoint run (w : World) (events : list Event) : option World :=
  match events with
  | [] => Some w
  | e :: rest =>
    match step w e with
    | Some w' => run w' rest
    | None => None
    end
  end.

(** The page after mounting: the key saved in local storage, if any and
    not empty, is loaded. *)
Definition init (saved : option string) (vs : list Voice) : World :=
  {| ui := match saved with
           | Some savedApiKey =>
             if JS.truthy savedApiKey then with_apiKey savedApiKey initialState
             else initialState
           | None => initialState
           end;
     isRecording := false;
     isBusy := false;
     isModelLoading := false;
     synth_queue := [];
     voices := vs;
     storage := saved;
     tasks := [];
     log := [] |}.

Definition reachable (w : World) : Prop :=
  exists saved vs events, run (init saved vs) events = Some w.

(** The requests that have left and not settled. *)
Definition outstanding (w : World) : nat := length (tasks w).

Definition completions_outstanding (w : World) : nat :=
  length (filter (fun t => match t with AwaitAxios _ _ => true | _ => false end)
            (tasks w)).

(** ** What a turn sends and receives *)

(** The request [handleSend] sends for [text]. *)
Definition requestFor (env : State) (text : string) : Request :=
  {| url := completionsUrl;
     model := modelId;
     body_messages := messages env ++ [{| role := user; content := text |}];
     headers := [("Content-Type", "application/json");
                 ("Authorization", ("Bearer " ++ apiKey env)%string)] |}.

(** The assistant message a settled request leads to. *)
Definition replyOf (outcome : AxiosOutcome) : Message :=
  match outcome with
  | Fulfilled data =>
    match choices data with
    | first :: _ => {| role := assistant; content := content (message first) |}
    | [] => {| role := assistant; content := sendFailureText |}
    end
  | Rejected => {| role := assistant; content := sendFailureText |}
  end.

(** ** The shape of a conversation *)

(** A conversation that starts with the system message and has no other
    message of that role. *)
Definition seeded (l : list Message) : Prop :=
  exists rest : list Message,
    l = systemMessage :: rest /\ Forall (fun m => role m <> system) rest.

Definition task_env (t : Task) : State :=
  match t with
  | AwaitTranscriber env _ => env
  | AwaitAxios env _ => env
  end.

(** The conversation on the page and the conversations the suspended
    handlers captured are all seeded. *)
Definition page_ok (w : World) : Prop :=
  seeded (messages (ui w))
  /\ Forall (fun t => seeded (messages (task_env t))) (tasks w).

(** [later] extends [earlier] at its end. *)
Definition extends (later earlier : list Message) : Prop :=
  exists added : list Message, later = earlier ++ added.

(** The events of a session in which nothing is recorded. *)
Definition typed (e : Event) : bool :=
  match e with
  | ClickRecord _ | TranscriberSettles _ _ => false
  | _ => true
  end.

(** No request is in flight, or one completion request is and the busy
    flag is set. *)
Definition one_guarded_request (w : World) : Prop :=
  tasks w = []
  \/ (exists env request, tasks w = [AwaitAxios env request])
     /\ isLoading (ui w) = true.

(** ** The message list on screen *)

(** How one message is drawn: a user message to the right on blue, any
    other to the left on grey; an assistant message carries the button
    that reads it aloud. *)
Record Bubble : Type := mkBubble {
  justifyEnd : bool;
  blue : bool;
  bubble_text : string;
  speakerButton : bool
}.

Definition bubble (msg : Message) : Bubble :=
  {| justifyEnd := match role msg with user => true | _ => false end;
     blue := match role msg with user => true | _ => false end;
     bubble_text := content msg;
     speakerButton := match role msg with assistant => true | _ => false end |}.

Definition bubbles (s : State) : list Bubble := map bubble (rendered s).

(** ** What is kept and what is in flight *)

(** The key a reload of the page would find in local storage. *)
Definition persistedKey (w : World) : string :=
  match storage w with
  | Some savedApiKey => savedApiKey
  | None => ""
  end.

Definition transcriptions_outstanding (w : World) : nat :=
  length (filter (fun t => match t with AwaitTranscriber _ _ => true | _ => false end)
            (tasks w)).

Definition is_transcription (t : Task) : bool :=
  match t with
  | AwaitTranscriber _ _ => true
  | AwaitAxios _ _ => false
  end.

(** A suspended [handleSend] holds the request it built from a text that
    is not blank and a key that is not empty. *)
Definition sent_ok (t : Task) : Prop :=
  match t with
  | AwaitAxios env request =>
    exists text : string,
      request = requestFor env text /\ JS.trim text <> "" /\ apiKey env <> ""
  | AwaitTranscriber _ _ => True
  end.

(** * Properties *)

(** ** Strings *)

Lemma truthy_nonempty (s : string) : s <> "" -> JS.truthy s = true.
Proof. destruct s; [congruence | reflexivity]. Qed.

Lemma truthy_empty (s : string) : s = "" -> JS.truthy s = false.
Proof. intros ->; reflexivity. Qed.

(** ** Lists of suspended handlers *)

Lemma nth_error_last {A : Type} (l : list A) (x : A) :
  nth_error (l ++ [x]) (length l) = Some x.
Proof. induction l as [|y l IH]; simpl; auto. Qed.

Lemma remove_nth_last {A : Type} (l : list A) (x : A) :
  remove_nth (length l) (l ++ [x]) = l.
Proof. induction l as [|y l IH]; simpl; [reflexivity | now rewrite IH]. Qed.

Lemma Forall_remove_nth {A : Type} (P : A -> Prop) (n : nat) (l : list A) :
  Forall P l -> Forall P (remove_nth n l).
Proof.
  intros H; revert n.
  induction H as [|x l Hx Hl IH]; intros [|n]; simpl; auto.
Qed.

(** ** What each handler does to the conversation, the busy flag, the
       suspended handlers and the effects *)

Section Handlers.

Variable env : State.

(** The playback part of a turn leaves the React state alone, but for
    nothing: it only queues the utterance. *)
Lemma speakText_ui (text : string) (w : World) :
  ui (speakText env text w) = ui w.
Proof.
  unfold speakText, seq, when, skip, synth_cancel, synth_speak.
  destruct (speechEnabled env); simpl; [|reflexivity].
  destruct (speaking w); reflexivity.
Qed.

Lemma speakText_tasks (text : string) (w : World) :
  tasks (speakText env text w) = tasks w.
Proof.
  unfold speakText, seq, when, skip, synth_cancel, synth_speak.
  destruct (speechEnabled env); simpl; [|reflexivity].
  destruct (speaking w); reflexivity.
Qed.

Lemma handleSend_resume_messages (outcome : AxiosOutcome) (w : World) :
  messages (ui (handleSend_resume env outcome w))
  = messages (ui w) ++ [replyOf outcome].
Proof.
  unfold handleSend_resume, seq.
  destruct outcome as [[[|first rest]]|]; simpl; try reflexivity.
  rewrite speakText_ui. reflexivity.
Qed.

Lemma handleSend_resume_tasks (outcome : AxiosOutcome) (w : World) :
  tasks (handleSend_resume env outcome w) = tasks w.
Proof.
  unfold handleSend_resume, seq.
  destruct outcome as [[[|first rest]]|]; simpl; try reflexivity.
  rewrite speakText_tasks. reflexivity.
Qed.


Lemma handleSend_no_key (messageText : option string) (w : World) :
  JS.trim (JS.or_else messageText (inputText env)) <> "" ->
  apiKey env = "" ->
  handleSend env messageText w
  = emit (EAlert "Please enter your OpenAI API key first.") w.
Proof.
  intros Ht Hk. unfold handleSend.
  rewrite (truthy_nonempty _ Ht), (truthy_empty _ Hk). reflexivity.
Qed.

Lemma handleSend_sends (messageText : option string) (w : World) :
  let text := JS.or_else messageText (inputText env) in
  JS.trim text <> "" ->
  apiKey env <> "" ->
  handleSend env messageText w
  = axios_post env (requestFor env text)
      (setIsLoading true
         (setInputText ""
            (setMessages
               (fun _ => messages env ++ [{| role := user; content := text |}]) w))).
Proof.
  intros text Ht Hk. unfold handleSend. fold text.
  rewrite (truthy_nonempty _ Ht), (truthy_nonempty _ Hk). reflexivity.
Qed.

End Handlers.

(** ** A turn of [handleSend] *)

(** A turn by a handler of the render on screen.  When the text
    [handleSend] settles on is not blank, a key is present in its render
    and the handler's render shows the present conversation, the
    conversation gains one user message with that text, the busy flag is
    set and one request leaves; whenever the request settles, one assistant
    message is appended, the reply of the response or the fixed failure
    text, and the busy flag is cleared.  With nothing in between the
    conversation has gained the user message followed by the assistant
    message, and nothing else. *)
Theorem handleSend_one_user_then_one_assistant
    (env : State) (messageText : option string) (outcome : AxiosOutcome)
    (w : World) :
  let text := JS.or_else messageText (inputText env) in
  JS.trim text <> "" ->
  apiKey env <> "" ->
  messages env = messages (ui w) ->
  let sent := handleSend env messageText w in
  messages (ui sent) = messages (ui w) ++ [{| role := user; content := text |}]
  /\ isLoading (ui sent) = true
  /\ tasks sent = tasks w ++ [AwaitAxios env (requestFor env text)]
  /\ (forall later : World,
        let settled := handleSend_resume env outcome later in
        messages (ui settled) = messages (ui later) ++ [replyOf outcome]
        /\ isLoading (ui settled) = false)
  /\ exists done : World,
       step sent (AxiosSettles (length (tasks w)) outcome) = Some done
       /\ messages (ui done)
          = messages (ui w) ++ [{| role := user; content := text |}; replyOf outcome]
       /\ isLoading (ui done) = false
       /\ tasks done = tasks w.
Proof.
  intros text Ht Hk Hfresh sent.
  assert (Hsent : sent = axios_post env (requestFor env text)
            (setIsLoading true (setInputText ""
               (setMessages
                  (fun _ => messages env ++ [{| role := user; content := text |}]) w))))
    by (apply handleSend_sends; assumption).
  assert (Hm : messages (ui sent)
               = messages (ui w) ++ [{| role := user; content := text |}])
    by (rewrite Hsent, <- Hfresh; reflexivity).
  assert (Htasks : tasks sent = tasks w ++ [AwaitAxios env (requestFor env text)])
    by (rewrite Hsent; reflexivity).
  repeat split.
  - exact Hm.
  - rewrite Hsent; reflexivity.
  - exact Htasks.
  - apply handleSend_resume_messages.
  - eexists. simpl. rewrite Htasks, nth_error_last, remove_nth_last.
    split; [reflexivity|].
    rewrite handleSend_resume_messages, handleSend_resume_tasks. simpl.
    rewrite Hm, <- app_assoc. auto.
Qed.

Lemma handleSend_one_user_then_one_assistant_witness :
  let env := with_apiKey "sk-test" initialState in
  let w := init (Some "sk-test") [] in
  exists done : World,
    step (handleSend env (Some "Hello") w) (AxiosSettles 0 Rejected) = Some done
    /\ messages (ui done)
       = [systemMessage; {| role := user; content := "Hello" |};
          {| role := assistant; content := sendFailureText |}]
    /\ isLoading (ui done) = false
    /\ tasks done = [].
Proof.
  intros env w.
  apply (handleSend_one_user_then_one_assistant env (Some "Hello") Rejected w).
  - vm_compute. discriminate.
  - vm_compute. discriminate.
  - reflexivity.
Defined.

(** C5.  For a text that is not blank and a key that is present, the
    request carries the model identifier, the whole conversation in order
    as it stands after the user message was appended (the messages of the
    handler's render, the system message among them, and the user message
    last), and the key as a bearer credential; and when the response has a
    first choice, the assistant message appended has that choice's message
    content. *)
Theorem handleSend_request_and_reply
    (env : State) (messageText : option string) (w : World) :
  let text := JS.or_else messageText (inputText env) in
  JS.trim text <> "" ->
  apiKey env <> "" ->
  let sent := handleSend env messageText w in
  exists request : Request,
    tasks sent = tasks w ++ [AwaitAxios env request]
    /\ log sent = log w ++ [ESetMessages (messages (ui sent)); EAxiosPost request]
    /\ url request = "https://api.openai.com/v1/chat/completions"
    /\ model request = "gpt-4o-mini"
    /\ body_messages request = messages (ui sent)
    /\ body_messages request = messages env ++ [{| role := user; content := text |}]
    /\ In ("Authorization", ("Bearer " ++ apiKey env)%string) (headers request)
    /\ forall (data : ResponseData) (first : Choice) (others : list Choice)
              (later : World),
         choices data = first :: others ->
         messages (ui (handleSend_resume env (Fulfilled data) later))
         = messages (ui later)
           ++ [{| role := assistant; content := content (message first) |}].
Proof.
  intros text Ht Hk sent.
  exists (requestFor env text).
  assert (Hsent : sent = axios_post env (requestFor env text)
            (setIsLoading true (setInputText ""
               (setMessages
                  (fun _ => messages env ++ [{| role := user; content := text |}]) w))))
    by (apply handleSend_sends; assumption).
  rewrite Hsent.
  split; [reflexivity|]. split; [simpl; now rewrite <- app_assoc|].
  repeat (split; [simpl; auto|]).
  intros data first others later Hc.
  rewrite handleSend_resume_messages. simpl. rewrite Hc. reflexivity.
Qed.

Lemma handleSend_request_and_reply_witness :
  let env := with_inputText "How are you?" (with_apiKey "sk-test" initialState) in
  exists request : Request,
    tasks (handleSend env None (init None [])) = [AwaitAxios env request]
    /\ model request = "gpt-4o-mini"
    /\ body_messages request
       = [systemMessage; {| role := user; content := "How are you?" |}]
    /\ In ("Authorization", "Bearer sk-test") (headers request).
Proof.
  intros env.
  destruct (handleSend_request_and_reply env None (init None []))
    as (request & Ht & _ & _ & Hmodel & _ & Hbody & Hauth & _).
  - vm_compute. discriminate.
  - vm_compute. discriminate.
  - exists request. repeat split; assumption.
Defined.




(** When the text is not blank and the key is empty in the render of
    [handleSend], it alerts the user and does nothing else: the React state, the
    conversation and the busy flag in it, is as before, and no request
    leaves. *)
Theorem handleSend_without_key
    (env : State) (messageText : option string) (w : World) :
  JS.trim (JS.or_else messageText (inputText env)) <> "" ->
  apiKey env = "" ->
  let aborted := handleSend env messageText w in
  ui aborted = ui w
  /\ tasks aborted = tasks w
  /\ log aborted = log w ++ [EAlert "Please enter your OpenAI API key first."].
Proof.
  intros Ht Hk aborted. unfold aborted.
  rewrite (handleSend_no_key env messageText w Ht Hk). repeat split.
Qed.

Lemma handleSend_without_key_witness :
  let w := init None [] in
  let aborted := handleSend (ui w) (Some "Hello") w in
  ui aborted = ui w
  /\ tasks aborted = tasks w
  /\ log aborted = log w ++ [EAlert "Please enter your OpenAI API key first."].
Proof.
  intros w. apply (handleSend_without_key (ui w) (Some "Hello") w).
  - vm_compute. discriminate.
  - reflexivity.
Defined.

(** ** A turn that starts from a recording *)

(** [handleSend] by cases, as a function of the page it runs on. *)
Lemma handleSend_cases (env : State) (messageText : option string) (w : World) :
  let text := JS.or_else messageText (inputText env) in
  handleSend env messageText w
  = if negb (JS.truthy (JS.trim text)) then w
    else if negb (JS.truthy (apiKey env)) then
      emit (EAlert "Please enter your OpenAI API key first.") w
    else
      axios_post env (requestFor env text)
        (setIsLoading true (setInputText ""
           (setMessages
              (fun _ => messages env ++ [{| role := user; content := text |}]) w))).
Proof. intros text. unfold handleSend. fold text. repeat destruct (negb _); reflexivity. Qed.

(** The conversation after [handleSend] depends on the page only through
    its conversation, and the requests it adds do not depend on the page. *)
Lemma handleSend_messages_congr (env : State) (messageText : option string)
    (w w' : World) :
  messages (ui w) = messages (ui w') ->
  messages (ui (handleSend env messageText w))
  = messages (ui (handleSend env messageText w')).
Proof.
  intros H. rewrite !handleSend_cases.
  repeat destruct (negb _); simpl; auto.
Qed.

Lemma handleSend_tasks_congr (env : State) (messageText : option string)
    (w w' : World) :
  tasks w = tasks w' ->
  tasks (handleSend env messageText w) = tasks (handleSend env messageText w').
Proof.
  intros H. rewrite !handleSend_cases.
  repeat destruct (negb _); simpl; auto. now rewrite H.
Qed.

(** The page when the transcription started by [handleTranscription]
    settles with [outcome], nothing having happened in between. *)
Lemma transcriber_settles (env : State) (audioBuffer : AudioBuffer)
    (outcome : TranscriberOutcome) (w : World) :
  step (handleTranscription env audioBuffer w)
    (TranscriberSettles (length (tasks w)) outcome)
  = Some (handleTranscription_resume env outcome
            (emit (ETranscriberSettled outcome)
               (with_isBusy false
                  (with_tasks (tasks w) (handleTranscription env audioBuffer w))))).
Proof.
  unfold step.
  replace (tasks (handleTranscription env audioBuffer w))
    with (tasks w ++ [AwaitTranscriber env audioBuffer]) by reflexivity.
  rewrite nth_error_last, remove_nth_last. reflexivity.
Qed.

(** The settling of a request acts alike on pages with the same
    conversation and the same suspended handlers. *)
Lemma axios_settles_congr (k : nat) (outcome : AxiosOutcome) (w w' : World) :
  messages (ui w) = messages (ui w') ->
  tasks w = tasks w' ->
  option_map (fun x => messages (ui x)) (step w (AxiosSettles k outcome))
  = option_map (fun x => messages (ui x)) (step w' (AxiosSettles k outcome)).
Proof.
  intros Hm Ht. unfold step. rewrite Ht.
  destruct (nth_error (tasks w') k) as [[env b|env r]|];
    cbn [option_map]; try reflexivity.
  rewrite !handleSend_resume_messages. simpl. now rewrite Hm.
Qed.

(** C3.  From the same page and with the handlers of the same render, a
    recording whose transcription yields [t] leaves the conversation that
    calling [handleSend] with [t] leaves, suspends the same request, and
    when that request settles the two conversations are again equal. *)
Theorem handleTranscription_same_conversation_as_handleSend
    (env : State) (audioBuffer : AudioBuffer) (t : string)
    (outcome : AxiosOutcome) (w : World) :
  let k := length (tasks w) in
  let direct := handleSend env (Some t) w in
  exists recorded : World,
    step (handleTranscription env audioBuffer w)
      (TranscriberSettles k (Transcribed t)) = Some recorded
    /\ messages (ui recorded) = messages (ui direct)
    /\ tasks recorded = tasks direct
    /\ option_map (fun x => messages (ui x)) (step recorded (AxiosSettles k outcome))
       = option_map (fun x => messages (ui x)) (step direct (AxiosSettles k outcome)).
Proof.
  intros k direct. eexists. split; [apply transcriber_settles|].
  assert (Hm : messages (ui (handleTranscription_resume env (Transcribed t)
                  (emit (ETranscriberSettled (Transcribed t))
                     (with_isBusy false
                        (with_tasks (tasks w) (handleTranscription env audioBuffer w))))))
               = messages (ui direct)).
  { unfold handleTranscription_resume, seq. simpl.
    apply handleSend_messages_congr. reflexivity. }
  assert (Ht : tasks (handleTranscription_resume env (Transcribed t)
                  (emit (ETranscriberSettled (Transcribed t))
                     (with_isBusy false
                        (with_tasks (tasks w) (handleTranscription env audioBuffer w)))))
               = tasks direct).
  { unfold handleTranscription_resume, seq. simpl.
    apply handleSend_tasks_congr. reflexivity. }
  split; [exact Hm|]. split; [exact Ht|].
  apply axios_settles_congr; assumption.
Qed.

(** ** The order of the steps of a turn *)

(** What playback adds to the effects: nothing when speech is off in the
    handler's render, else the utterance, after a cancel when something
    was being spoken. *)
Lemma speakText_log (env : State) (text : string) (w : World) :
  exists speech : list Effect,
    log (speakText env text w) = log w ++ speech
    /\ (speechEnabled env = false -> speech = [])
    /\ (speechEnabled env = true ->
        exists u : Utterance,
          utterance_text u = text
          /\ (speech = [ESynthSpeak u] \/ speech = [ESynthCancel; ESynthSpeak u])).
Proof.
  unfold speakText, seq, when, skip, synth_cancel, synth_speak.
  destruct (speechEnabled env); simpl.
  - destruct (speaking w); simpl.
    + eexists. split; [rewrite <- app_assoc; reflexivity|].
      split; [discriminate|]. intros _. eexists. split; [|right; reflexivity].
      reflexivity.
    + eexists. split; [reflexivity|].
      split; [discriminate|]. intros _. eexists. split; [|left; reflexivity].
      reflexivity.
  - exists []. rewrite app_nil_r. repeat split; auto. discriminate.
Qed.

(** The effects of [handleSend] from its [await] on: a report on the
    console when the request failed, the assistant message, then
    playback. *)
Lemma handleSend_resume_log (env : State) (outcome : AxiosOutcome) (w : World) :
  exists reporting speech : list Effect,
    log (handleSend_resume env outcome w)
    = log w ++ reporting
        ++ [ESetMessages (messages (ui w) ++ [replyOf outcome])] ++ speech
    /\ (reporting = []
        \/ reporting = [EConsoleError "Error communicating with OpenAI:"])
    /\ (speech = []
        \/ speechEnabled env = true
           /\ exists u : Utterance,
                utterance_text u = content (replyOf outcome)
                /\ (speech = [ESynthSpeak u]
                    \/ speech = [ESynthCancel; ESynthSpeak u])).
Proof.
  unfold handleSend_resume, seq.
  destruct outcome as [[[|first rest]]|]; cbn [choices replyOf].
  - exists [EConsoleError "Error communicating with OpenAI:"], [].
    simpl. rewrite <- app_assoc. auto.
  - destruct (speakText_log env (content (message first))
                (setMessages (fun prevMessages =>
                   prevMessages
                   ++ [{| role := assistant; content := content (message first) |}]) w))
      as (speech & Hlog & Hoff & Hon).
    exists [], speech. cbn [log setIsLoading on_ui]. rewrite Hlog.
    split; [simpl; rewrite <- app_assoc; reflexivity|].
    split; [auto|].
    destruct (speechEnabled env) eqn:E; [right; split; auto | left; auto].
  - exists [EConsoleError "Error communicating with OpenAI:"], [].
    simpl. rewrite <- app_assoc. auto.
Qed.

(** The settling of the request a page has suspended last. *)
Lemma axios_settles (env : State) (request : Request) (outcome : AxiosOutcome)
    (suspended : list Task) (x : World) :
  tasks x = suspended ++ [AwaitAxios env request] ->
  step x (AxiosSettles (length suspended) outcome)
  = Some (handleSend_resume env outcome
            (emit (EAxiosSettled outcome) (with_tasks suspended x))).
Proof.
  intros H. unfold step. rewrite H, nth_error_last, remove_nth_last. reflexivity.
Qed.

Lemma axios_settles_log (env : State) (request : Request) (outcome : AxiosOutcome)
    (suspended : list Task) (x : World) :
  tasks x = suspended ++ [AwaitAxios env request] ->
  exists (done : World) (reporting speech : list Effect),
    step x (AxiosSettles (length suspended) outcome) = Some done
    /\ log done
       = log x ++ [EAxiosSettled outcome] ++ reporting
         ++ [ESetMessages (messages (ui x) ++ [replyOf outcome])] ++ speech
    /\ (reporting = []
        \/ reporting = [EConsoleError "Error communicating with OpenAI:"])
    /\ (speech = []
        \/ exists u : Utterance,
             utterance_text u = content (replyOf outcome)
             /\ (speech = [ESynthSpeak u]
                 \/ speech = [ESynthCancel; ESynthSpeak u])).
Proof.
  intros H.
  destruct (handleSend_resume_log env outcome
              (emit (EAxiosSettled outcome) (with_tasks suspended x)))
    as (reporting & speech & Hlog & Hrep & Hsp).
  eexists. exists reporting, speech.
  split; [apply (axios_settles env request); exact H|].
  split; [rewrite Hlog; simpl; rewrite <- app_assoc; reflexivity|].
  split; [exact Hrep|].
  destruct Hsp as [->|[_ Hu]]; [left; reflexivity | right; exact Hu].
Qed.

(** C6.  In a turn of [handleSend], and in a turn that starts from a
    recording, the effects come in this order: (the transcription starts
    and settles,) the user message is appended, the request leaves, the
    request settles, the assistant message is appended, and only then
    playback is invoked. *)
Theorem turn_steps_in_order
    (env : State) (messageText : option string) (outcome : AxiosOutcome)
    (w : World) :
  let text := JS.or_else messageText (inputText env) in
  JS.trim text <> "" ->
  apiKey env <> "" ->
  let updated := messages env ++ [{| role := user; content := text |}] in
  let playback (speech : list Effect) :=
    speech = []
    \/ exists u : Utterance,
         utterance_text u = content (replyOf outcome)
         /\ (speech = [ESynthSpeak u] \/ speech = [ESynthCancel; ESynthSpeak u]) in
  let report (reporting : list Effect) :=
    reporting = []
    \/ reporting = [EConsoleError "Error communicating with OpenAI:"] in
  (exists (done : World) (request : Request) (reporting speech : list Effect),
     step (handleSend env messageText w)
       (AxiosSettles (length (tasks w)) outcome) = Some done
     /\ log done
        = log w
          ++ [ESetMessages updated; EAxiosPost request; EAxiosSettled outcome]
          ++ reporting
          ++ [ESetMessages (updated ++ [replyOf outcome])]
          ++ speech
     /\ report reporting /\ playback speech)
  /\ forall (audioBuffer : AudioBuffer) (t : string),
       messageText = Some t ->
       exists (recorded done : World) (request : Request)
              (reporting speech : list Effect),
         step (handleTranscription env audioBuffer w)
           (TranscriberSettles (length (tasks w)) (Transcribed t)) = Some recorded
         /\ step recorded (AxiosSettles (length (tasks w)) outcome) = Some done
         /\ log done
            = log w
              ++ [ETranscriberStart audioBuffer; ETranscriberSettled (Transcribed t);
                  ESetMessages updated; EAxiosPost request; EAxiosSettled outcome]
              ++ reporting
              ++ [ESetMessages (updated ++ [replyOf outcome])]
              ++ speech
         /\ report reporting /\ playback speech.
Proof.
  intros text Ht Hk updated playback report. split.
  - pose proof (handleSend_sends env messageText w Ht Hk) as Hsent.
    cbv zeta in Hsent. fold text in Hsent. fold updated in Hsent.
    destruct (axios_settles_log env (requestFor env text) outcome (tasks w)
                (handleSend env messageText w))
      as (done & reporting & speech & Hstep & Hlog & Hrep & Hsp).
    { rewrite Hsent. reflexivity. }
    exists done, (requestFor env text), reporting, speech.
    split; [exact Hstep|]. split; [|split; assumption].
    rewrite Hlog, Hsent. simpl. rewrite <- !app_assoc. reflexivity.
  - intros audioBuffer t ->.
    set (heard := emit (ETranscriberSettled (Transcribed t))
                    (with_isBusy false
                       (with_tasks (tasks w) (handleTranscription env audioBuffer w)))).
    set (recorded := setIsLoading false (handleSend env (Some t) (setInputText t heard))).
    assert (Hrecorded : step (handleTranscription env audioBuffer w)
                          (TranscriberSettles (length (tasks w)) (Transcribed t))
                        = Some recorded)
      by (rewrite transcriber_settles; reflexivity).
    pose proof (handleSend_sends env (Some t) (setInputText t heard) Ht Hk) as Hsent.
    cbv zeta in Hsent. fold text in Hsent. fold updated in Hsent.
    destruct (axios_settles_log env (requestFor env text) outcome (tasks w) recorded)
      as (done & reporting & speech & Hstep & Hlog & Hrep & Hsp).
    { unfold recorded. rewrite Hsent. reflexivity. }
    exists recorded, done, (requestFor env text), reporting, speech.
    split; [exact Hrecorded|]. split; [exact Hstep|]. split; [|split; assumption].
    rewrite Hlog. unfold recorded. rewrite Hsent. simpl.
    rewrite <- !app_assoc. reflexivity.
Qed.

Lemma turn_steps_in_order_witness :
  let env := with_apiKey "sk-test" initialState in
  let w := init (Some "sk-test") [] in
  let outcome :=
    Fulfilled {| choices :=
      [{| message := {| role := assistant; content := "Hi there." |} |}] |} in
  let updated := [systemMessage; {| role := user; content := "Hello" |}] in
  exists (done : World) (request : Request) (reporting speech : list Effect),
    step (handleSend env (Some "Hello") w) (AxiosSettles 0 outcome) = Some done
    /\ log done
       = log w
         ++ [ESetMessages updated; EAxiosPost request; EAxiosSettled outcome]
         ++ reporting
         ++ [ESetMessages (updated ++ [{| role := assistant; content := "Hi there." |}])]
         ++ speech.
Proof.
  intros env w outcome updated.
  destruct (turn_steps_in_order env (Some "Hello") outcome w)
    as [(done & request & reporting & speech & Hstep & Hlog & _) _].
  - vm_compute. discriminate.
  - vm_compute. discriminate.
  - exists done, request, reporting, speech. split; [exact Hstep | exact Hlog].
Defined.

(** ** Speech *)

(** When [toggleSpeech] runs while speech is enabled, in its render
    and on the page, and the synthesizer is speaking, the flag becomes
    false, a cancel is issued to the synthesizer, which stops speaking, and
    the speaking indicator is cleared; and when speech is disabled in the
    render of [speakText], [speakText] does nothing, so that the speaker
    button of a message starts no utterance while speech is disabled. *)
Theorem toggleSpeech_cancels_and_muted_speakText_silent
    (env : State) (text : string) (index : nat) (w : World) :
  (speechEnabled env = true ->
   speechEnabled (ui w) = true ->
   speaking w = true ->
   let off := toggleSpeech env w in
   speechEnabled (ui off) = false
   /\ log off = log w ++ [ESynthCancel]
   /\ speaking off = false
   /\ isSpeaking (ui off) = false)
  /\ (speechEnabled env = false -> speakText env text w = w)
  /\ (speechEnabled (ui w) = false ->
      forall w' : World, step w (ClickSpeaker index) = Some w' -> w' = w).
Proof.
  split; [|split].
  - intros He Hs Hp off.
    assert (Hp' : speaking (setSpeechEnabled negb w) = true) by exact Hp.
    unfold off, toggleSpeech, seq, when. rewrite He, Hp'.
    simpl. rewrite Hs. auto.
  - intros He. unfold speakText. rewrite He. reflexivity.
  - intros He w' H. unfold step in H.
    destruct (nth_error (rendered (ui w)) index) as [msg|]; [|discriminate].
    destruct (role msg); try discriminate.
    unfold speakText in H. rewrite He in H. cbn [negb] in H. unfold skip in H.
    congruence.
Qed.

Lemma toggleSpeech_cancels_and_muted_speakText_silent_witness :
  let u := {| utterance_text := "Hi there."; utterance_voice := None |} in
  let w := setIsSpeaking true (with_synth_queue [u] (init None [])) in
  let muted := toggleSpeech (ui w) w in
  (speechEnabled (ui muted) = false
   /\ log muted = log w ++ [ESynthCancel]
   /\ speaking muted = false
   /\ isSpeaking (ui muted) = false)
  /\ speakText (ui muted) "Hi there." muted = muted
  /\ forall w' : World, step muted (ClickSpeaker 0) = Some w' -> w' = muted.
Proof.
  intros u w muted. split; [|split].
  - apply (proj1 (toggleSpeech_cancels_and_muted_speakText_silent (ui w) "" 0 w));
      reflexivity.
  - apply (proj1 (proj2 (toggleSpeech_cancels_and_muted_speakText_silent
                           (ui muted) "Hi there." 0 muted))).
    reflexivity.
  - apply (proj2 (proj2 (toggleSpeech_cancels_and_muted_speakText_silent
                           (ui muted) "Hi there." 0 muted))).
    reflexivity.
Defined.

(** ** The empty argument *)

(** C10.  [handleSend] called with the empty string does what it does
    called without argument: it takes the input text of its render.  So
    when a transcription yields the empty string while that input text is
    not blank and a key is present, the input text is sent as the user
    message; a page on which text was typed before the recording gets
    there. *)
Theorem handleSend_empty_argument_uses_inputText
    (env : State) (audioBuffer : AudioBuffer) (w : World) :
  handleSend env (Some "") w = handleSend env None w
  /\ (JS.trim (inputText env) <> "" ->
      apiKey env <> "" ->
      exists recorded : World,
        step (handleTranscription env audioBuffer w)
          (TranscriberSettles (length (tasks w)) (Transcribed "")) = Some recorded
        /\ messages (ui recorded)
           = messages env ++ [{| role := user; content := inputText env |}]
        /\ tasks recorded
           = tasks w ++ [AwaitAxios env (requestFor env (inputText env))])
  /\ exists typed : World,
       run (init (Some "sk-test") [])
         [ChangeInput "typed before"; ClickRecord 0; ClickRecord 1;
          TranscriberSettles 0 (Transcribed "")] = Some typed
       /\ rendered (ui typed) = [{| role := user; content := "typed before" |}].
Proof.
  split; [reflexivity|]. split.
  - intros Ht Hk. eexists. split; [apply transcriber_settles|].
    unfold handleTranscription_resume, seq.
    rewrite (handleSend_sends env (Some "")); [|exact Ht|exact Hk].
    split; reflexivity.
  - eexists. split; vm_compute; reflexivity.
Qed.

Lemma handleSend_empty_argument_uses_inputText_witness :
  let env := with_inputText "typed before" (with_apiKey "sk-test" initialState) in
  let w := init (Some "sk-test") [] in
  exists recorded : World,
    step (handleTranscription env 1 w) (TranscriberSettles 0 (Transcribed ""))
    = Some recorded
    /\ messages (ui recorded)
       = [systemMessage; {| role := user; content := "typed before" |}]
    /\ tasks recorded = [AwaitAxios env (requestFor env "typed before")].
Proof.
  intros env w.
  apply (proj1 (proj2 (handleSend_empty_argument_uses_inputText env 1 w))).
  - vm_compute. discriminate.
  - vm_compute. discriminate.
Defined.

(** ** The busy flag and the requests in flight *)

(** C2.  The busy flag does not cover a turn that starts from a
    recording: when the transcription yields text, [handleSend] is started
    and not awaited, and the [finally] of [handleTranscription] clears the
    flag while the completion request is in flight.  The Send button is
    then enabled, and a second completion request leaves before the first
    has settled. *)
Theorem recorded_turn_busy_cleared_while_request_in_flight :
  exists heard again : World,
    run (init (Some "sk-test") [])
      [ClickRecord 0; ClickRecord 1; TranscriberSettles 0 (Transcribed "Hello")]
    = Some heard
    /\ isLoading (ui heard) = false
    /\ completions_outstanding heard = 1
    /\ sendDisabled (setInputText "More" heard) = false
    /\ run heard [ChangeInput "More"; ClickSend] = Some again
    /\ outstanding again = 2
    /\ completions_outstanding again = 2.
Proof.
  do 2 eexists.
  split; [vm_compute; reflexivity|].
  repeat split; vm_compute; reflexivity.
Qed.

(** In a session in which nothing is recorded the flag does guard the
    request: at most one request is in flight, and the busy flag is set
    while it is. *)
Lemma typed_step_one_guarded_request (w w' : World) (e : Event) :
  typed e = true ->
  one_guarded_request w -> step w e = Some w' -> one_guarded_request w'.
Proof.
  intros He Hw Hstep. destruct e; try discriminate He; simpl in Hstep.
  - destruct (inputDisabled w); [discriminate|]. injection Hstep as <-. exact Hw.
  - unfold sendDisabled in Hstep.
    destruct (isLoading (ui w)) eqn:Hbusy; [discriminate|].
    destruct Hw as [Hnone|[_ Hset]]; [|congruence].
    destruct (_ || _); [discriminate|]. injection Hstep as <-.
    rewrite handleSend_cases.
    repeat destruct (negb _); [left; exact Hnone | left; exact Hnone |].
    right. simpl. rewrite Hnone. split; [do 2 eexists; reflexivity | reflexivity].
  - injection Hstep as <-. exact Hw.
  - injection Hstep as <-.
    assert (Hui : isLoading (ui (toggleSpeech (ui w) w)) = isLoading (ui w))
      by (unfold toggleSpeech, seq, when; destruct (_ && _); reflexivity).
    assert (Hts : tasks (toggleSpeech (ui w) w) = tasks w)
      by (unfold toggleSpeech, seq, when; destruct (_ && _); reflexivity).
    unfold one_guarded_request. rewrite Hui, Hts. exact Hw.
  - destruct (nth_error (rendered (ui w)) index) as [msg|]; [|discriminate].
    destruct (role msg); try discriminate. injection Hstep as <-.
    unfold one_guarded_request. rewrite speakText_ui, speakText_tasks. exact Hw.
  - destruct (nth_error (tasks w) task) as [[env b|env r]|] eqn:Hk; try discriminate.
    injection Hstep as <-. left.
    rewrite handleSend_resume_tasks. simpl.
    destruct Hw as [Hnone|[(env' & r' & Hone) _]].
    + rewrite Hnone. destruct task; reflexivity.
    + rewrite Hone. rewrite Hone in Hk.
      destruct task as [|[|task]]; simpl in *; try discriminate; reflexivity.
  - destruct (speaking w); [|discriminate]. injection Hstep as <-. exact Hw.
  - destruct (synth_queue w); [discriminate|]. injection Hstep as <-. exact Hw.
  - destruct (synth_queue w); [discriminate|]. injection Hstep as <-. exact Hw.
  - injection Hstep as <-. exact Hw.
Qed.

(** X17.  Through a session in which nothing is recorded, at most one
    request is in flight, a completion request, and the busy flag is set
    while it is. *)
Lemma typed_run_one_guarded_request (events : list Event) (w w' : World) :
  forallb typed events = true ->
  one_guarded_request w -> run w events = Some w' -> one_guarded_request w'.
Proof.
  revert w. induction events as [|e events IH]; intros w He Hw Hrun; simpl in *.
  - injection Hrun as <-. exact Hw.
  - apply andb_prop in He. destruct He as [He Hes].
    destruct (step w e) as [w1|] eqn:Hstep; [|discriminate].
    apply (IH w1 Hes); [|exact Hrun].
    apply (typed_step_one_guarded_request w w1 e He Hw Hstep).
Qed.

(** ** The conversation as a log *)

(** C4.  The conversation is not append-only on every page that can be
    reached: [handleSend] sets the conversation to the messages of its
    render followed by the user message.  When it runs after the [await]
    of [handleTranscription] and a reply has arrived since its render, the
    reply is dropped. *)
Theorem late_handleSend_drops_reply :
  exists before after : World,
    run (init (Some "sk-test") [])
      [ClickRecord 0; ClickRecord 1; TranscriberSettles 0 (Transcribed "first");
       ClickRecord 0; ClickRecord 2;
       AxiosSettles 0
         (Fulfilled {| choices :=
            [{| message := {| role := assistant; content := "reply" |} |}] |})]
    = Some before
    /\ messages (ui before)
       = [systemMessage; {| role := user; content := "first" |};
          {| role := assistant; content := "reply" |}]
    /\ step before (TranscriberSettles 0 (Transcribed "second")) = Some after
    /\ messages (ui after)
       = [systemMessage; {| role := user; content := "first" |};
          {| role := user; content := "second" |}]
    /\ ~ extends (messages (ui after)) (messages (ui before)).
Proof.
  do 2 eexists.
  split; [vm_compute; reflexivity|].
  split; [vm_compute; reflexivity|].
  split; [vm_compute; reflexivity|].
  split; [vm_compute; reflexivity|].
  intros [added H]. vm_compute in H. discriminate H.
Qed.

(** What does hold on every page that can be reached: the conversation
    starts with the system message, which is the only one of its role, and
    the page shows the messages after it; and every event other than the
    settling of a transcription with text extends the conversation. *)

Lemma seeded_snoc (l : list Message) (m : Message) :
  seeded l -> role m <> system -> seeded (l ++ [m]).
Proof.
  intros (rest & -> & Hrest) Hm. exists (rest ++ [m]). split; [reflexivity|].
  apply Forall_app. split; [exact Hrest | constructor; [exact Hm | constructor]].
Qed.

Lemma page_ok_ext (w w' : World) :
  messages (ui w') = messages (ui w) -> tasks w' = tasks w ->
  page_ok w -> page_ok w'.
Proof. unfold page_ok. intros -> ->. auto. Qed.

Lemma replyOf_role (outcome : AxiosOutcome) : role (replyOf outcome) = assistant.
Proof. destruct outcome as [[[|first rest]]|]; reflexivity. Qed.

Lemma handleSend_ok (env : State) (messageText : option string) (w : World) :
  seeded (messages env) -> page_ok w -> page_ok (handleSend env messageText w).
Proof.
  intros Henv [Hm Ht]. rewrite handleSend_cases.
  repeat destruct (negb _); [split; assumption | split; assumption |].
  split; simpl.
  - apply seeded_snoc; [exact Henv | discriminate].
  - apply Forall_app. split; [exact Ht | constructor; [exact Henv | constructor]].
Qed.

Lemma handleSend_resume_ok (env : State) (outcome : AxiosOutcome) (w : World) :
  page_ok w -> page_ok (handleSend_resume env outcome w).
Proof.
  intros [Hm Ht]. split.
  - rewrite handleSend_resume_messages.
    apply seeded_snoc; [exact Hm | rewrite replyOf_role; discriminate].
  - rewrite handleSend_resume_tasks. exact Ht.
Qed.

Lemma handleTranscription_resume_ok (env : State) (outcome : TranscriberOutcome)
    (w : World) :
  seeded (messages env) -> page_ok w ->
  page_ok (handleTranscription_resume env outcome w).
Proof.
  intros Henv Hw. unfold handleTranscription_resume, seq.
  destruct outcome as [t|].
  - apply (page_ok_ext (handleSend env (Some t) (setInputText t w)));
      [reflexivity | reflexivity |].
    apply handleSend_ok; [exact Henv|].
    apply (page_ok_ext w); [reflexivity | reflexivity | exact Hw].
  - destruct Hw as [Hm Ht]. split; simpl; [|exact Ht].
    apply seeded_snoc; [exact Hm | discriminate].
Qed.

Lemma suspended_env_seeded (w : World) (k : nat) (t : Task) :
  page_ok w -> nth_error (tasks w) k = Some t -> seeded (messages (task_env t)).
Proof.
  intros [_ Ht] Hk. apply nth_error_In in Hk.
  rewrite Forall_forall in Ht. apply Ht, Hk.
Qed.

Lemma step_ok (w w' : World) (e : Event) :
  page_ok w -> step w e = Some w' -> page_ok w'.
Proof.
  intros Hw Hstep. pose proof Hw as [Hm Ht].
  destruct e; simpl in Hstep.
  - destruct (inputDisabled w); [discriminate|]. injection Hstep as <-.
    apply (page_ok_ext w); auto.
  - destruct (sendDisabled w); [discriminate|]. injection Hstep as <-.
    apply handleSend_ok; assumption.
  - destruct (recordDisabled w); [discriminate|]. injection Hstep as <-.
    unfold handleRecordButtonClick. destruct (isRecording w).
    + split; simpl; [exact Hm|].
      apply Forall_app. split; [exact Ht | constructor; [exact Hm | constructor]].
    + apply (page_ok_ext w); auto.
  - injection Hstep as <-. apply (page_ok_ext w); auto.
  - injection Hstep as <-. apply (page_ok_ext w); auto.
    + unfold toggleSpeech, seq, when. destruct (_ && _); reflexivity.
    + unfold toggleSpeech, seq, when. destruct (_ && _); reflexivity.
  - destruct (nth_error (rendered (ui w)) index) as [msg|]; [|discriminate].
    destruct (role msg); try discriminate. injection Hstep as <-.
    apply (page_ok_ext w); auto using speakText_tasks.
    now rewrite speakText_ui.
  - destruct (nth_error (tasks w) task) as [[env b|env r]|] eqn:Hk; try discriminate.
    injection Hstep as <-.
    apply handleTranscription_resume_ok.
    + apply (suspended_env_seeded w task _ Hw Hk).
    + split; simpl; [exact Hm | apply Forall_remove_nth, Ht].
  - destruct (nth_error (tasks w) task) as [[env b|env r]|] eqn:Hk; try discriminate.
    injection Hstep as <-.
    apply handleSend_resume_ok.
    split; simpl; [exact Hm | apply Forall_remove_nth, Ht].
  - destruct (speaking w); [|discriminate]. injection Hstep as <-.
    apply (page_ok_ext w); auto.
  - destruct (synth_queue w); [discriminate|]. injection Hstep as <-.
    apply (page_ok_ext w); auto.
  - destruct (synth_queue w); [discriminate|]. injection Hstep as <-.
    apply (page_ok_ext w); auto.
  - injection Hstep as <-. apply (page_ok_ext w); auto.
Qed.

Lemma run_ok (events : list Event) (w w' : World) :
  page_ok w -> run w events = Some w' -> page_ok w'.
Proof.
  revert w. induction events as [|e events IH]; intros w Hw Hrun; simpl in Hrun.
  - injection Hrun as <-. exact Hw.
  - destruct (step w e) as [w1|] eqn:Hstep; [|discriminate].
    apply (IH w1); [apply (step_ok w w1 e Hw Hstep) | exact Hrun].
Qed.

Lemma init_ok (saved : option string) (vs : list Voice) : page_ok (init saved vs).
Proof.
  assert (H : seeded [systemMessage]) by (exists []; split; [reflexivity | constructor]).
  split; [|constructor].
  destruct saved as [k|]; simpl; [destruct (JS.truthy k)|]; exact H.
Qed.

(** X15.  On every page that can be reached the conversation starts with
    the system message, no other message has the system role, and the
    messages on screen are the ones after it. *)
Lemma reachable_system_message_first (w : World) :
  reachable w ->
  exists rest : list Message,
    messages (ui w) = systemMessage :: rest
    /\ rendered (ui w) = rest
    /\ Forall (fun m => role m <> system) rest.
Proof.
  intros (saved & vs & events & Hrun).
  destruct (run_ok events _ _ (init_ok saved vs) Hrun) as [(rest & Hm & Hrest) _].
  exists rest. unfold rendered. rewrite Hm. auto.
Qed.

Lemma extends_refl (l : list Message) : extends l l.
Proof. exists []. now rewrite app_nil_r. Qed.

(** X16.  Every event extends the conversation at its end or leaves it
    as it is, but for the settling of a transcription with text, which
    sets it from the render of its handler. *)
Lemma step_extends_unless_transcribed (w w' : World) (e : Event) :
  step w e = Some w' ->
  extends (messages (ui w')) (messages (ui w))
  \/ exists k t, e = TranscriberSettles k (Transcribed t).
Proof.
  intros Hstep. destruct e; simpl in Hstep.
  - destruct (inputDisabled w); [discriminate|]. injection Hstep as <-.
    left. apply extends_refl.
  - destruct (sendDisabled w); [discriminate|]. injection Hstep as <-.
    left. rewrite handleSend_cases.
    repeat destruct (negb _); try apply extends_refl.
    eexists. reflexivity.
  - destruct (recordDisabled w); [discriminate|]. injection Hstep as <-.
    left. unfold handleRecordButtonClick.
    destruct (isRecording w); apply extends_refl.
  - injection Hstep as <-. left. apply extends_refl.
  - injection Hstep as <-. left.
    unfold toggleSpeech, seq, when. destruct (_ && _); apply extends_refl.
  - destruct (nth_error (rendered (ui w)) index) as [msg|]; [|discriminate].
    destruct (role msg); try discriminate. injection Hstep as <-.
    left. rewrite speakText_ui. apply extends_refl.
  - destruct (nth_error (tasks w) task) as [[env b|env r]|]; try discriminate.
    injection Hstep as <-.
    destruct outcome as [t|]; [right; eauto|].
    left. eexists. reflexivity.
  - destruct (nth_error (tasks w) task) as [[env b|env r]|]; try discriminate.
    injection Hstep as <-. left.
    rewrite handleSend_resume_messages. eexists. reflexivity.
  - destruct (speaking w); [|discriminate]. injection Hstep as <-.
    left. apply extends_refl.
  - destruct (synth_queue w); [discriminate|]. injection Hstep as <-.
    left. apply extends_refl.
  - destruct (synth_queue w); [discriminate|]. injection Hstep as <-.
    left. apply extends_refl.
  - injection Hstep as <-. left. apply extends_refl.
Qed.

(** * Further properties of the handlers *)

(** ** A recording that is not sent *)

(** X1.  When the transcription fails, the turn ends there: the
    conversation gains the fixed transcription-failure message as its one
    new message, no completion request leaves, the input text is as it
    was, and the busy flag is cleared. *)
Theorem transcription_failure_one_message
    (env : State) (audioBuffer : AudioBuffer) (w : World) :
  exists done : World,
    step (handleTranscription env audioBuffer w)
      (TranscriberSettles (length (tasks w)) TranscriptionFailed) = Some done
    /\ messages (ui done)
       = messages (ui w)
         ++ [{| role := assistant; content := "Error: Unable to transcribe audio." |}]
    /\ tasks done = tasks w
    /\ inputText (ui done) = inputText (ui w)
    /\ isLoading (ui done) = false
    /\ log done
       = log w
         ++ [ETranscriberStart audioBuffer; ETranscriberSettled TranscriptionFailed;
             EConsoleError "Transcription error:";
             ESetMessages (messages (ui done))].
Proof.
  eexists. split; [apply transcriber_settles|].
  unfold handleTranscription_resume, seq. simpl.
  repeat split. rewrite <- !app_assoc. reflexivity.
Qed.



(** ** While a typed turn is in flight *)

Lemma truthy_true (s : string) : JS.truthy s = true -> s <> "".
Proof. destruct s; [discriminate | discriminate]. Qed.

Lemma send_enabled_text (w : World) :
  sendDisabled w = false -> JS.trim (inputText (ui w)) <> "".
Proof.
  unfold sendDisabled. intros H. apply truthy_true.
  destruct (isLoading (ui w)); [discriminate|].
  destruct (JS.truthy (JS.trim (inputText (ui w)))); [reflexivity | discriminate].
Qed.

Lemma handleSend_resume_inputText (env : State) (outcome : AxiosOutcome) (w : World) :
  inputText (ui (handleSend_resume env outcome w)) = inputText (ui w).
Proof.
  unfold handleSend_resume, seq.
  destruct outcome as [[[|first rest]]|]; simpl; try reflexivity.
  rewrite speakText_ui. reflexivity.
Qed.

(** While one completion request is the only thing in flight, with the
    busy flag set and the input field empty, every event but the settling
    of a request leaves things so. *)
Lemma in_flight_step (env : State) (request : Request) (w w' : World) (e : Event) :
  tasks w = [AwaitAxios env request] ->
  isLoading (ui w) = true ->
  inputText (ui w) = "" ->
  (forall task outcome, e <> AxiosSettles task outcome) ->
  step w e = Some w' ->
  tasks w' = [AwaitAxios env request]
  /\ isLoading (ui w') = true
  /\ inputText (ui w') = "".
Proof.
  intros Ht Hl Hi Hne Hstep. destruct e; simpl in Hstep.
  - unfold inputDisabled in Hstep. rewrite Hl in Hstep. discriminate.
  - unfold sendDisabled in Hstep. rewrite Hl in Hstep. discriminate.
  - unfold recordDisabled in Hstep. rewrite Hl in Hstep. discriminate.
  - injection Hstep as <-. auto.
  - injection Hstep as <-. unfold toggleSpeech, seq, when.
    destruct (_ && _); auto.
  - destruct (nth_error (rendered (ui w)) index) as [msg|]; [|discriminate].
    destruct (role msg); try discriminate. injection Hstep as <-.
    rewrite speakText_ui, speakText_tasks. auto.
  - rewrite Ht in Hstep. destruct task as [|[|task]]; discriminate.
  - elim (Hne task outcome). reflexivity.
  - destruct (speaking w); [|discriminate]. injection Hstep as <-. auto.
  - destruct (synth_queue w); [discriminate|]. injection Hstep as <-. auto.
  - destruct (synth_queue w); [discriminate|]. injection Hstep as <-. auto.
  - injection Hstep as <-. auto.
Qed.

Lemma in_flight_run (env : State) (request : Request) (events : list Event) :
  forall w w' : World,
    tasks w = [AwaitAxios env request] ->
    isLoading (ui w) = true ->
    inputText (ui w) = "" ->
    (forall task outcome, ~ In (AxiosSettles task outcome) events) ->
    run w events = Some w' ->
    tasks w' = [AwaitAxios env request]
    /\ isLoading (ui w') = true
    /\ inputText (ui w') = "".
Proof.
  induction events as [|e events IH]; intros w w' Ht Hl Hi Hne Hrun; simpl in Hrun.
  - injection Hrun as <-. auto.
  - destruct (step w e) as [w1|] eqn:Hstep; [|discriminate].
    destruct (in_flight_step env request w w1 e Ht Hl Hi) as (Ht1 & Hl1 & Hi1);
      [intros task outcome ->; apply (Hne task outcome); left; reflexivity
      | exact Hstep |].
    apply (IH w1 w' Ht1 Hl1 Hi1); [|exact Hrun].
    intros task outcome Hin. apply (Hne task outcome). right. exact Hin.
Qed.

(** X3.  When nothing is in flight and a click on Send sends a request,
    then from the click on, through whatever happens before that request
    settles, the busy flag is set and the input field is empty, so the
    text field, the Send button and the Record button are disabled; and
    when the request settles the busy flag is cleared, nothing is in
    flight, and Send stays disabled, the input field being empty. *)
Theorem sent_turn_disables_controls
    (w sent later : World) (events : list Event) :
  step w ClickSend = Some sent ->
  apiKey (ui w) <> "" ->
  tasks w = [] ->
  (forall task outcome, ~ In (AxiosSettles task outcome) events) ->
  run sent events = Some later ->
  isLoading (ui later) = true
  /\ inputText (ui later) = ""
  /\ step later ClickSend = None
  /\ (forall value : string, step later (ChangeInput value) = None)
  /\ (forall captured : AudioBuffer, step later (ClickRecord captured) = None)
  /\ forall outcome : AxiosOutcome,
       exists done : World,
         step later (AxiosSettles 0 outcome) = Some done
         /\ isLoading (ui done) = false
         /\ tasks done = []
         /\ step done ClickSend = None.
Proof.
  intros Hstep Hk Hnone Hne Hrun. simpl in Hstep.
  destruct (sendDisabled w) eqn:Hen; [discriminate|]. injection Hstep as <-.
  pose proof (send_enabled_text w Hen) as Ht.
  pose proof (handleSend_sends (ui w) None w Ht Hk) as Hsent. cbv zeta in Hsent.
  set (request := requestFor (ui w) (JS.or_else None (inputText (ui w)))) in *.
  destruct (in_flight_run (ui w) request events (handleSend (ui w) None w) later)
    as (Htasks & Hbusy & Hinput); try assumption;
    [rewrite Hsent; simpl; rewrite Hnone; reflexivity
    | rewrite Hsent; reflexivity | rewrite Hsent; reflexivity |].
  split; [exact Hbusy|]. split; [exact Hinput|].
  split; [unfold step, sendDisabled; rewrite Hbusy; reflexivity|].
  split; [intros value; unfold step, inputDisabled; rewrite Hbusy; reflexivity|].
  split; [intros captured; unfold step, recordDisabled; rewrite Hbusy; reflexivity|].
  intros outcome. eexists.
  split; [apply (axios_settles (ui w) request outcome [] later); exact Htasks|].
  split; [reflexivity|].
  split; [rewrite handleSend_resume_tasks; reflexivity|].
  unfold step, sendDisabled. rewrite handleSend_resume_inputText. simpl.
  rewrite Hinput. reflexivity.
Qed.

Lemma sent_turn_disables_controls_witness :
  let w := setInputText "Hello" (init (Some "sk-test") []) in
  let sent := handleSend (ui w) None w in
  exists later : World,
    run sent [ClickSpeechToggle; ChangeApiKey "sk-other"; ModelLoading true]
    = Some later
    /\ isLoading (ui later) = true
    /\ step later ClickSend = None
    /\ (forall value : string, step later (ChangeInput value) = None)
    /\ (forall captured : AudioBuffer, step later (ClickRecord captured) = None).
Proof.
  intros w sent. eexists. split; [vm_compute; reflexivity|].
  match goal with
  | |- isLoading (ui ?later) = true /\ _ =>
    destruct (sent_turn_disables_controls w sent later
                [ClickSpeechToggle; ChangeApiKey "sk-other"; ModelLoading true])
      as (H1 & _ & H2 & H3 & H4 & _)
  end.
  - reflexivity.
  - vm_compute. discriminate.
  - reflexivity.
  - intros task outcome [H|[H|[H|[]]]]; discriminate H.
  - vm_compute. reflexivity.
  - repeat split; assumption.
Defined.

(** ** Speech *)

(** After [speakText] with speech enabled the synthesizer holds the new
    utterance and nothing else. *)
Lemma speakText_queue_enabled (env : State) (text : string) (w : World) :
  speechEnabled env = true ->
  synth_queue (speakText env text w)
  = [{| utterance_text := text;
        utterance_voice :=
          match voices w with
          | [] => None
          | first :: _ =>
            Some (match find isFemale (voices w) with
                  | Some femaleVoice => femaleVoice
                  | None => first
                  end)
          end |}].
Proof.
  intros He. unfold speakText, seq, when, synth_cancel, synth_speak. rewrite He.
  cbn [negb]. unfold speaking.
  destruct (synth_queue w) as [|busy rest] eqn:Hq; simpl; [rewrite Hq|]; reflexivity.
Qed.

(** X4.  With speech enabled, [speakText] leaves the synthesizer with
    exactly one utterance, the new text, whatever was being spoken before.
    Its voice is one of the available voices; it is a voice whose name
    contains "female" or "Female" whenever there is one, the first
    available voice when there is none, and no voice is set when none is
    available. *)
Theorem speakText_one_utterance_preferred_voice
    (env : State) (text : string) (w : World) :
  speechEnabled env = true ->
  exists u : Utterance,
    synth_queue (speakText env text w) = [u]
    /\ utterance_text u = text
    /\ (voices w = [] -> utterance_voice u = None)
    /\ (forall chosen : Voice,
          utterance_voice u = Some chosen -> In chosen (voices w))
    /\ (forall v : Voice,
          In v (voices w) -> isFemale v = true ->
          exists chosen : Voice,
            utterance_voice u = Some chosen /\ isFemale chosen = true)
    /\ ((forall v : Voice, In v (voices w) -> isFemale v = false) ->
        utterance_voice u = hd_error (voices w)).
Proof.
  intros He. eexists. split; [apply speakText_queue_enabled; exact He|].
  cbn [utterance_text utterance_voice].
  split; [reflexivity|]. split; [intros ->; reflexivity|].
  destruct (voices w) as [|first rest] eqn:Hv.
  - split; [discriminate|]. split; [intros v []|reflexivity].
  - destruct (find isFemale (first :: rest)) as [femaleVoice|] eqn:Hf.
    + apply find_some in Hf. destruct Hf as [Hin Hfem].
      split; [intros chosen [= <-]; exact Hin|].
      split; [intros v _ _; eauto|].
      intros Hnone. rewrite (Hnone femaleVoice Hin) in Hfem. discriminate.
    + split; [intros chosen [= <-]; left; reflexivity|].
      split; [|reflexivity].
      intros v Hin Hfem. rewrite (find_none _ _ Hf v Hin) in Hfem. discriminate.
Qed.

Lemma speakText_one_utterance_preferred_voice_witness :
  let vs := [{| name := "Alex" |}; {| name := "Google UK English Female" |}] in
  let w := with_synth_queue
             [{| utterance_text := "old"; utterance_voice := None |}]
             (init None vs) in
  exists u : Utterance,
    synth_queue (speakText (ui w) "Hi there." w) = [u]
    /\ utterance_text u = "Hi there."
    /\ exists chosen : Voice,
         utterance_voice u = Some chosen /\ isFemale chosen = true.
Proof.
  intros vs w.
  destruct (speakText_one_utterance_preferred_voice (ui w) "Hi there." w)
    as (u & Hq & Ht & _ & _ & Hfemale & _).
  - reflexivity.
  - exists u. split; [exact Hq|]. split; [exact Ht|].
    apply (Hfemale {| name := "Google UK English Female" |}).
    + right. left. reflexivity.
    + vm_compute. reflexivity.
Defined.

(** X5.  [toggleSpeech] issues a cancel only when it turns speech off
    while the synthesizer speaks: when speech is off in its render, or
    nothing is being spoken, it flips the flag and touches nothing else.
    And since the flag is flipped from the state of the moment, two
    toggles, of whatever renders, leave the flag as it was. *)
Theorem toggleSpeech_flips_and_cancels_only_when_speaking
    (env env' : State) (w : World) :
  (speechEnabled env = false \/ speaking w = false ->
   toggleSpeech env w = setSpeechEnabled negb w)
  /\ speechEnabled (ui (toggleSpeech env w)) = negb (speechEnabled (ui w))
  /\ speechEnabled (ui (toggleSpeech env' (toggleSpeech env w)))
     = speechEnabled (ui w).
Proof.
  assert (Hflip : forall (e : State) (x : World),
             speechEnabled (ui (toggleSpeech e x)) = negb (speechEnabled (ui x))).
  { intros e x. unfold toggleSpeech, seq, when.
    destruct (_ && _); reflexivity. }
  split; [|split].
  - intros H. unfold toggleSpeech, seq, when.
    assert (Hs : speaking (setSpeechEnabled negb w) = speaking w) by reflexivity.
    rewrite Hs. destruct H as [-> | ->]; [reflexivity|].
    rewrite andb_false_r. reflexivity.
  - apply Hflip.
  - rewrite !Hflip. apply negb_involutive.
Qed.

Lemma toggleSpeech_flips_and_cancels_only_when_speaking_witness :
  let w := init None [] in
  toggleSpeech (ui w) w = setSpeechEnabled negb w.
Proof.
  intros w.
  apply (proj1 (toggleSpeech_flips_and_cancels_only_when_speaking (ui w) (ui w) w)).
  right. reflexivity.
Defined.

(** X6.  The flag [speakText] reads is the one of the render that created
    [handleSend]: when speech is turned off after a click on Send and
    before the reply arrives, the flag on the page is off and the reply is
    spoken all the same. *)
Theorem reply_spoken_after_muting_mid_turn
    (w : World) (data : ResponseData) (first : Choice) (others : list Choice) :
  sendDisabled w = false ->
  apiKey (ui w) <> "" ->
  speechEnabled (ui w) = true ->
  choices data = first :: others ->
  exists (done : World) (u : Utterance) (before : list Effect),
    run w [ClickSend; ClickSpeechToggle;
           AxiosSettles (length (tasks w)) (Fulfilled data)] = Some done
    /\ speechEnabled (ui done) = false
    /\ utterance_text u = content (message first)
    /\ synth_queue done = [u]
    /\ log done = before ++ [ESynthSpeak u].
Proof.
  intros Hen Hk He Hc.
  pose proof (send_enabled_text w Hen) as Ht.
  pose proof (handleSend_sends (ui w) None w Ht Hk) as Hsent. cbv zeta in Hsent.
  set (request := requestFor (ui w) (JS.or_else None (inputText (ui w)))) in *.
  set (sent := handleSend (ui w) None w) in *.
  set (muted := toggleSpeech (ui sent) sent).
  assert (Htasks : tasks muted = tasks w ++ [AwaitAxios (ui w) request]).
  { unfold muted, toggleSpeech, seq, when. destruct (_ && _); rewrite Hsent; reflexivity. }
  assert (Hflag : speechEnabled (ui muted) = false).
  { unfold muted, toggleSpeech, seq, when. destruct (_ && _); rewrite Hsent; simpl;
      rewrite He; reflexivity. }
  set (arrived := emit (EAxiosSettled (Fulfilled data)) (with_tasks (tasks w) muted)).
  set (appended :=
         setMessages (fun prevMessages =>
           prevMessages ++ [{| role := assistant; content := content (message first) |}])
           arrived).
  assert (Hdone : handleSend_resume (ui w) (Fulfilled data) arrived
                  = setIsLoading false (speakText (ui w) (content (message first)) appended)).
  { unfold handleSend_resume, seq. rewrite Hc. reflexivity. }
  pose proof (speakText_queue_enabled (ui w) (content (message first)) appended He) as Hq.
  exists (handleSend_resume (ui w) (Fulfilled data) arrived).
  eexists.
  exists (log appended ++ if speaking appended then [ESynthCancel] else []).
  split.
  - assert (H1 : step w ClickSend = Some sent)
      by (unfold step; rewrite Hen; reflexivity).
    assert (H2 : step sent ClickSpeechToggle = Some muted) by reflexivity.
    cbn [run]. rewrite H1, H2.
    rewrite (axios_settles (ui w) request (Fulfilled data) (tasks w) muted Htasks).
    reflexivity.
  - rewrite Hdone. cbn [ui setIsLoading on_ui synth_queue log speechEnabled with_isLoading].
    rewrite speakText_ui. split; [exact Hflag|].
    split; [|split; [exact Hq|]]; [reflexivity|].
    unfold speakText, seq, when, synth_cancel, synth_speak. rewrite He.
    cbn [negb]. destruct (speaking appended); simpl.
    + rewrite <- !app_assoc. reflexivity.
    + rewrite app_nil_r. reflexivity.
Qed.

Lemma reply_spoken_after_muting_mid_turn_witness :
  let w := setInputText "Hello" (init (Some "sk-test") []) in
  let data := {| choices :=
    [{| message := {| role := assistant; content := "Hi there." |} |}] |} in
  exists (done : World) (u : Utterance) (before : list Effect),
    run w [ClickSend; ClickSpeechToggle; AxiosSettles 0 (Fulfilled data)] = Some done
    /\ speechEnabled (ui done) = false
    /\ utterance_text u = "Hi there."
    /\ synth_queue done = [u]
    /\ log done = before ++ [ESynthSpeak u].
Proof.
  intros w data.
  apply (reply_spoken_after_muting_mid_turn w data
           {| message := {| role := assistant; content := "Hi there." |} |} []).
  - reflexivity.
  - vm_compute. discriminate.
  - reflexivity.
  - reflexivity.
Defined.

(** ** What holds on every page that can be reached *)

(** Case analysis on what a handler does, by its conditions. *)
Ltac handler_cases :=
  unfold handleSend_resume, handleTranscription_resume, handleSend,
    handleRecordButtonClick, handleTranscription, handleApiKeyChange,
    toggleSpeech, speakText, transcriber_start, axios_post, stopRecording,
    startRecording, synth_cancel, synth_speak, setMessages, setInputText,
    setIsLoading, setApiKey, setIsSpeaking, setSpeechEnabled, alert,
    console_error, seq, when, skip;
  repeat (cbn;
          match goal with
          | |- context [if ?c then _ else _] => destruct c eqn:?
          | |- context [match ?x with _ => _ end] => destruct x eqn:?
          end);
  cbn.

(** An invariant of the page: it holds after mounting and every event
    keeps it. *)
Lemma reachable_ind (P : World -> Prop) :
  (forall saved vs, P (init saved vs)) ->
  (forall w w' e, P w -> step w e = Some w' -> P w') ->
  forall w, reachable w -> P w.
Proof.
  intros Hinit Hstep w (saved & vs & events & Hrun).
  revert Hrun. generalize (Hinit saved vs). generalize (init saved vs).
  induction events as [|e events IH]; intros w0 H0 Hrun; simpl in Hrun.
  - injection Hrun as <-. exact H0.
  - destruct (step w0 e) as [w1|] eqn:He; [|discriminate].
    apply (IH w1); [apply (Hstep w0 w1 e H0 He) | exact Hrun].
Qed.

Lemma step_keeps_key (w w' : World) (e : Event) :
  step w e = Some w' ->
  (forall value, e <> ChangeApiKey value) ->
  apiKey (ui w') = apiKey (ui w) /\ storage w' = storage w.
Proof.
  intros Hstep Hne. destruct e; simpl in Hstep.
  - destruct (inputDisabled w); [discriminate|]. injection Hstep as <-. auto.
  - destruct (sendDisabled w); [discriminate|]. injection Hstep as <-.
    handler_cases; auto.
  - destruct (recordDisabled w); [discriminate|]. injection Hstep as <-.
    handler_cases; auto.
  - exfalso. apply (Hne value). reflexivity.
  - injection Hstep as <-. handler_cases; auto.
  - destruct (nth_error (rendered (ui w)) index) as [msg|]; [|discriminate].
    destruct (role msg); try discriminate. injection Hstep as <-.
    handler_cases; auto.
  - destruct (nth_error (tasks w) task) as [[env b|env r]|]; try discriminate.
    injection Hstep as <-. handler_cases; auto.
  - destruct (nth_error (tasks w) task) as [[env b|env r]|]; try discriminate.
    injection Hstep as <-. handler_cases; auto.
  - destruct (speaking w); [|discriminate]. injection Hstep as <-. auto.
  - destruct (synth_queue w); [discriminate|]. injection Hstep as <-. auto.
  - destruct (synth_queue w); [discriminate|]. injection Hstep as <-. auto.
  - injection Hstep as <-. auto.
Qed.

(** X7.  On every page that can be reached the key in the React state is
    the key in local storage (the empty key when nothing is stored): only
    [handleApiKeyChange] changes either, and it writes both.  So a reload
    brings the page up with the key it had. *)
Theorem key_on_page_is_key_persisted (w : World) (vs : list Voice) :
  reachable w ->
  apiKey (ui w) = persistedKey w
  /\ apiKey (ui (init (storage w) vs)) = apiKey (ui w).
Proof.
  intros Hw.
  assert (H : apiKey (ui w) = persistedKey w).
  { revert w Hw. apply reachable_ind.
    - intros [k|] vs'; [destruct k|]; reflexivity.
    - intros w w' e IH Hstep. unfold persistedKey in *.
      destruct e;
        try (destruct (step_keeps_key _ _ _ Hstep) as [-> ->];
             [intros v; discriminate | exact IH]).
      simpl in Hstep. injection Hstep as <-. reflexivity. }
  split; [exact H|]. rewrite H. unfold persistedKey, init.
  destruct (storage w) as [[|c k]|]; reflexivity.
Qed.

Lemma key_on_page_is_key_persisted_witness :
  let w := handleApiKeyChange "sk-new" (init (Some "sk-old") []) in
  apiKey (ui w) = persistedKey w
  /\ apiKey (ui (init (storage w) [])) = apiKey (ui w).
Proof.
  intros w. apply (key_on_page_is_key_persisted w []).
  exists (Some "sk-old"), [], [ChangeApiKey "sk-new"]. reflexivity.
Defined.

Lemma speakText_queue_disabled (env : State) (text : string) (w : World) :
  speechEnabled env = false -> synth_queue (speakText env text w) = synth_queue w.
Proof. intros He. unfold speakText. rewrite He. reflexivity. Qed.

Lemma speakText_queue_short (env : State) (text : string) (w : World) :
  length (synth_queue w) <= 1 -> length (synth_queue (speakText env text w)) <= 1.
Proof.
  intros H. destruct (speechEnabled env) eqn:He.
  - rewrite (speakText_queue_enabled env text w He). auto.
  - rewrite (speakText_queue_disabled env text w He). exact H.
Qed.

(** X8.  On every page that can be reached the synthesizer holds at most
    one utterance: [speakText] cancels what is being spoken before it
    speaks, so a new reply or a replay takes the place of the utterance in
    progress and utterances never queue up. *)
Theorem at_most_one_utterance (w : World) :
  reachable w -> length (synth_queue w) <= 1.
Proof.
  revert w. apply reachable_ind.
  - intros saved vs. simpl. auto.
  - intros w w' e IH Hstep. destruct e; simpl in Hstep.
    + destruct (inputDisabled w); [discriminate|]. injection Hstep as <-. exact IH.
    + destruct (sendDisabled w); [discriminate|]. injection Hstep as <-.
      rewrite handleSend_cases. repeat destruct (negb _); exact IH.
    + destruct (recordDisabled w); [discriminate|]. injection Hstep as <-.
      unfold handleRecordButtonClick. destruct (isRecording w); exact IH.
    + injection Hstep as <-. exact IH.
    + injection Hstep as <-. unfold toggleSpeech, seq, when.
      destruct (_ && _); simpl; auto.
    + destruct (nth_error (rendered (ui w)) index) as [msg|]; [|discriminate].
      destruct (role msg); try discriminate. injection Hstep as <-.
      apply speakText_queue_short, IH.
    + destruct (nth_error (tasks w) task) as [[env b|env r]|]; try discriminate.
      injection Hstep as <-. unfold handleTranscription_resume, seq.
      destruct outcome as [t|]; [|exact IH].
      cbn [synth_queue setIsLoading on_ui]. rewrite handleSend_cases.
      repeat destruct (negb _); exact IH.
    + destruct (nth_error (tasks w) task) as [[env b|env r]|]; try discriminate.
      injection Hstep as <-. unfold handleSend_resume, seq.
      destruct outcome as [[[|first rest]]|]; try exact IH.
      cbn [synth_queue setIsLoading on_ui]. apply speakText_queue_short. exact IH.
    + destruct (speaking w); [|discriminate]. injection Hstep as <-. exact IH.
    + destruct (synth_queue w) as [|u q]; [discriminate|]. injection Hstep as <-.
      simpl in *. apply le_S_n in IH. auto.
    + destruct (synth_queue w) as [|u q]; [discriminate|]. injection Hstep as <-.
      simpl in *. apply le_S_n in IH. auto.
    + injection Hstep as <-. exact IH.
Qed.

Lemma at_most_one_utterance_witness :
  let w := setInputText "Hello" (init (Some "sk-test") []) in
  length (synth_queue (handleSend (ui w) None w)) <= 1.
Proof.
  intros w. apply (at_most_one_utterance (handleSend (ui w) None w)).
  exists (Some "sk-test"), [], [ChangeInput "Hello"; ClickSend].
  vm_compute. reflexivity.
Defined.

Lemma transcriptions_outstanding_eq (w : World) :
  transcriptions_outstanding w = length (filter is_transcription (tasks w)).
Proof. reflexivity. Qed.

Lemma count_snoc (p : Task -> bool) (l : list Task) (t : Task) :
  length (filter p (l ++ [t])) = length (filter p l) + (if p t then 1 else 0).
Proof.
  rewrite filter_app, length_app. simpl. destruct (p t); reflexivity.
Qed.

Lemma count_remove_nth (p : Task -> bool) (k : nat) (l : list Task) (t : Task) :
  nth_error l k = Some t ->
  length (filter p l)
  = length (filter p (remove_nth k l)) + (if p t then 1 else 0).
Proof.
  revert k. induction l as [|x l IH]; intros [|k] H; simpl in H; try discriminate.
  - injection H as ->. simpl. destruct (p t); simpl; [now rewrite Nat.add_1_r | now rewrite Nat.add_0_r].
  - simpl. destruct (p x); simpl; rewrite (IH k H); reflexivity.
Qed.

Lemma handleSend_transcriptions (env : State) (messageText : option string) (w : World) :
  transcriptions_outstanding (handleSend env messageText w) = transcriptions_outstanding w
  /\ isBusy (handleSend env messageText w) = isBusy w.
Proof.
  rewrite handleSend_cases. repeat destruct (negb _); try (split; reflexivity).
  split; [|reflexivity].
  rewrite !transcriptions_outstanding_eq.
  replace (tasks (axios_post env
             (requestFor env (JS.or_else messageText (inputText env)))
             (setIsLoading true (setInputText ""
                (setMessages (fun _ => messages env
                   ++ [{| role := user;
                          content := JS.or_else messageText (inputText env) |}]) w)))))
    with (tasks w ++ [AwaitAxios env
                        (requestFor env (JS.or_else messageText (inputText env)))])
    by reflexivity.
  rewrite count_snoc. simpl. apply Nat.add_0_r.
Qed.

Lemma speakText_isBusy (env : State) (text : string) (w : World) :
  isBusy (speakText env text w) = isBusy w.
Proof.
  unfold speakText, seq, when, skip, synth_cancel, synth_speak.
  destruct (speechEnabled env); simpl; [|reflexivity].
  destruct (speaking w); reflexivity.
Qed.

Lemma step_transcriptions (w w' : World) (e : Event) :
  transcriptions_outstanding w = (if isBusy w then 1 else 0) ->
  step w e = Some w' ->
  transcriptions_outstanding w' = (if isBusy w' then 1 else 0).
Proof.
  intros IH Hstep. destruct e; simpl in Hstep.
  - destruct (inputDisabled w); [discriminate|]. injection Hstep as <-. exact IH.
  - destruct (sendDisabled w); [discriminate|]. injection Hstep as <-.
    destruct (handleSend_transcriptions (ui w) None w) as [-> ->]. exact IH.
  - unfold recordDisabled in Hstep.
    destruct (isLoading (ui w)); [discriminate|].
    destruct (isModelLoading w); [discriminate|].
    destruct (isBusy w) eqn:Hb; [discriminate|]. injection Hstep as <-.
    unfold handleRecordButtonClick. destruct (isRecording w).
    + rewrite transcriptions_outstanding_eq.
      replace (tasks ((stopRecording;;
                 (fun w'0 => handleTranscription (ui w'0) captured w'0)) w))
        with (tasks w ++ [AwaitTranscriber (ui w) captured]) by reflexivity.
      rewrite count_snoc. rewrite transcriptions_outstanding_eq in IH.
      rewrite IH. reflexivity.
    + simpl. rewrite Hb. exact IH.
  - injection Hstep as <-. exact IH.
  - injection Hstep as <-.
    assert (Ht : tasks (toggleSpeech (ui w) w) = tasks w)
      by (unfold toggleSpeech, seq, when; destruct (_ && _); reflexivity).
    assert (Hb : isBusy (toggleSpeech (ui w) w) = isBusy w)
      by (unfold toggleSpeech, seq, when; destruct (_ && _); reflexivity).
    rewrite transcriptions_outstanding_eq, Ht, Hb. exact IH.
  - destruct (nth_error (rendered (ui w)) index) as [msg|]; [|discriminate].
    destruct (role msg); try discriminate. injection Hstep as <-.
    rewrite transcriptions_outstanding_eq, speakText_tasks, speakText_isBusy.
    exact IH.
  - destruct (nth_error (tasks w) task) as [[env b|env r]|] eqn:Hk; try discriminate.
    injection Hstep as <-.
    rewrite transcriptions_outstanding_eq in IH.
    rewrite (count_remove_nth is_transcription task _ _ Hk) in IH. simpl in IH.
    assert (H0 : length (filter is_transcription (remove_nth task (tasks w))) = 0)
      by (destruct (isBusy w); [rewrite Nat.add_1_r in IH; now injection IH
                               | rewrite Nat.add_1_r in IH; discriminate]).
    unfold handleTranscription_resume. destruct outcome as [t|]; unfold seq.
    + set (heard := setInputText t
                      (emit (ETranscriberSettled (Transcribed t))
                         (with_isBusy false
                            (with_tasks (remove_nth task (tasks w)) w)))).
      destruct (handleSend_transcriptions env (Some t) heard) as [Hc Hb].
      change (transcriptions_outstanding (handleSend env (Some t) heard)
              = (if isBusy (handleSend env (Some t) heard) then 1 else 0)).
      rewrite Hc, Hb. exact H0.
    + rewrite transcriptions_outstanding_eq. simpl. exact H0.
  - destruct (nth_error (tasks w) task) as [[env b|env r]|] eqn:Hk; try discriminate.
    injection Hstep as <-.
    rewrite transcriptions_outstanding_eq in *.
    rewrite (count_remove_nth is_transcription task _ _ Hk) in IH. simpl in IH.
    rewrite Nat.add_0_r in IH.
    rewrite handleSend_resume_tasks. simpl tasks.
    assert (Hb : forall x, isBusy (handleSend_resume env outcome x) = isBusy x).
    { intros x. unfold handleSend_resume, seq.
      destruct outcome as [[[|first rest]]|]; try reflexivity.
      cbn [choices].
      match goal with
      | |- context [speakText ?e ?c ?y] =>
        transitivity (isBusy (speakText e c y));
          [reflexivity | rewrite speakText_isBusy; reflexivity]
      end. }
    rewrite Hb. exact IH.
  - destruct (speaking w); [|discriminate]. injection Hstep as <-. exact IH.
  - destruct (synth_queue w); [discriminate|]. injection Hstep as <-. exact IH.
  - destruct (synth_queue w); [discriminate|]. injection Hstep as <-. exact IH.
  - injection Hstep as <-. exact IH.
Qed.

(** X9.  With the transcriber busy while a transcription runs, at most
    one transcription is in flight on every page that can be reached, the
    transcriber being busy exactly then; and while one is in flight the
    text field, the Send button and the Record button are disabled. *)
Theorem at_most_one_transcription (w : World) :
  reachable w ->
  transcriptions_outstanding w <= 1
  /\ (transcriptions_outstanding w = 1 <-> isBusy w = true)
  /\ (transcriptions_outstanding w <> 0 ->
      step w ClickSend = None
      /\ (forall value : string, step w (ChangeInput value) = None)
      /\ (forall captured : AudioBuffer, step w (ClickRecord captured) = None)).
Proof.
  intros Hw.
  assert (H : transcriptions_outstanding w = (if isBusy w then 1 else 0)).
  { revert w Hw. apply reachable_ind.
    - intros saved vs. reflexivity.
    - intros w w' e. apply step_transcriptions. }
  rewrite H. destruct (isBusy w) eqn:Hb.
  - split; [auto|]. split; [tauto|]. intros _.
    unfold step, sendDisabled, inputDisabled, recordDisabled. rewrite Hb.
    rewrite !orb_true_r. auto.
  - split; [auto|]. split; [split; discriminate|]. intros Hne. now elim Hne.
Qed.

Lemma at_most_one_transcription_witness :
  let w := handleRecordButtonClick 1 (startRecording (init None [])) in
  transcriptions_outstanding w <= 1
  /\ (transcriptions_outstanding w = 1 <-> isBusy w = true)
  /\ (transcriptions_outstanding w <> 0 ->
      step w ClickSend = None
      /\ (forall value : string, step w (ChangeInput value) = None)
      /\ (forall captured : AudioBuffer, step w (ClickRecord captured) = None)).
Proof.
  intros w. apply (at_most_one_transcription w).
  exists None, [], [ClickRecord 0; ClickRecord 1].
  vm_compute. reflexivity.
Defined.

Lemma reachable_seeded (w : World) : reachable w -> seeded (messages (ui w)).
Proof.
  intros (saved & vs & events & Hrun).
  apply (run_ok events _ _ (init_ok saved vs) Hrun).
Qed.

(** X10.  On every page that can be reached the message list on screen
    has one bubble for each message but the first, and every bubble is
    either a user bubble, to the right on blue and without speaker button,
    or an assistant bubble, to the left on grey and with the speaker
    button; the speaker button of a bubble can be clicked exactly when the
    bubble has one. *)
Theorem bubbles_user_or_assistant (w : World) :
  reachable w ->
  length (bubbles (ui w)) + 1 = length (messages (ui w))
  /\ Forall (fun b => blue b = justifyEnd b /\ speakerButton b = negb (justifyEnd b))
       (bubbles (ui w))
  /\ forall index : nat,
       (exists w' : World, step w (ClickSpeaker index) = Some w')
       <-> (exists b : Bubble,
              nth_error (bubbles (ui w)) index = Some b /\ speakerButton b = true).
Proof.
  intros Hw. destruct (reachable_seeded w Hw) as (rest & Hm & Hrest).
  unfold bubbles, rendered. rewrite Hm. cbn [skipn length].
  split; [rewrite length_map; apply Nat.add_1_r|]. split.
  - rewrite Forall_map. eapply Forall_impl; [|exact Hrest].
    intros m Hrole. unfold bubble. cbn.
    destruct (role m) eqn:E; [split; reflexivity | split; reflexivity | congruence].
  - intros index. unfold step, rendered. rewrite Hm. cbn [skipn].
    rewrite nth_error_map. destruct (nth_error rest index) as [msg|]; cbn [option_map].
    + unfold bubble. destruct (role msg); split.
      * intros [w' H]. discriminate.
      * intros (b & [= <-] & H). discriminate.
      * intros _. eexists. split; reflexivity.
      * intros _. eexists. reflexivity.
      * intros [w' H]. discriminate.
      * intros (b & [= <-] & H). discriminate.
    + split; [intros [w' H]; discriminate | intros (b & H & _); discriminate].
Qed.

Lemma bubbles_user_or_assistant_witness :
  let w := handleSend (with_inputText "Hello" (ui (init (Some "sk-test") []))) None
             (init (Some "sk-test") []) in
  length (bubbles (ui w)) + 1 = length (messages (ui w))
  /\ Forall (fun b => blue b = justifyEnd b /\ speakerButton b = negb (justifyEnd b))
       (bubbles (ui w)).
Proof.
  intros w.
  destruct (bubbles_user_or_assistant w) as (Hlen & Hall & _).
  - exists (Some "sk-test"), [], [ChangeInput "Hello"; ClickSend].
    vm_compute. reflexivity.
  - split; assumption.
Defined.

Lemma negb_truthy_false (s : string) : negb (JS.truthy s) = false -> s <> "".
Proof. intros H. apply truthy_true. now destruct (JS.truthy s). Qed.

Lemma handleSend_sent_ok (env : State) (messageText : option string) (w : World) :
  Forall sent_ok (tasks w) -> Forall sent_ok (tasks (handleSend env messageText w)).
Proof.
  intros H. rewrite handleSend_cases.
  destruct (negb (JS.truthy (JS.trim (JS.or_else messageText (inputText env)))))
    eqn:Ht; [exact H|].
  destruct (negb (JS.truthy (apiKey env))) eqn:Hk; [exact H|].
  simpl. apply Forall_app. split; [exact H|].
  constructor; [|constructor]. eexists. split; [reflexivity|].
  split; apply negb_truthy_false; assumption.
Qed.

Lemma step_sent_ok (w w' : World) (e : Event) :
  Forall sent_ok (tasks w) -> step w e = Some w' -> Forall sent_ok (tasks w').
Proof.
  intros IH Hstep. destruct e; simpl in Hstep.
  - destruct (inputDisabled w); [discriminate|]. injection Hstep as <-. exact IH.
  - destruct (sendDisabled w); [discriminate|]. injection Hstep as <-.
    apply handleSend_sent_ok, IH.
  - destruct (recordDisabled w); [discriminate|]. injection Hstep as <-.
    unfold handleRecordButtonClick. destruct (isRecording w); [|exact IH].
    simpl. apply Forall_app. split; [exact IH | repeat constructor].
  - injection Hstep as <-. exact IH.
  - injection Hstep as <-. unfold toggleSpeech, seq, when.
    destruct (_ && _); exact IH.
  - destruct (nth_error (rendered (ui w)) index) as [msg|]; [|discriminate].
    destruct (role msg); try discriminate. injection Hstep as <-.
    rewrite speakText_tasks. exact IH.
  - destruct (nth_error (tasks w) task) as [[env b|env r]|]; try discriminate.
    injection Hstep as <-. unfold handleTranscription_resume.
    destruct outcome as [t|]; unfold seq.
    + apply (handleSend_sent_ok env (Some t)). simpl.
      apply Forall_remove_nth, IH.
    + simpl. apply Forall_remove_nth, IH.
  - destruct (nth_error (tasks w) task) as [[env b|env r]|]; try discriminate.
    injection Hstep as <-. rewrite handleSend_resume_tasks. simpl.
    apply Forall_remove_nth, IH.
  - destruct (speaking w); [|discriminate]. injection Hstep as <-. exact IH.
  - destruct (synth_queue w); [discriminate|]. injection Hstep as <-. exact IH.
  - destruct (synth_queue w); [discriminate|]. injection Hstep as <-. exact IH.
  - injection Hstep as <-. exact IH.
Qed.

(** X11.  Every completion request in flight on a page that can be
    reached goes to the completions address with the model identifier,
    carries a conversation that starts with the system message, has no
    other message of that role and ends with a user message whose text is
    not blank, and carries a bearer credential that is not empty: no
    request leaves for a blank text or without a key. *)
Theorem requests_in_flight_well_formed (w : World) (env : State) (request : Request) :
  reachable w ->
  In (AwaitAxios env request) (tasks w) ->
  exists (history : list Message) (text : string),
    body_messages request
    = systemMessage :: history ++ [{| role := user; content := text |}]
    /\ Forall (fun m => role m <> system) history
    /\ JS.trim text <> ""
    /\ url request = "https://api.openai.com/v1/chat/completions"
    /\ model request = "gpt-4o-mini"
    /\ apiKey env <> ""
    /\ In ("Authorization", ("Bearer " ++ apiKey env)%string) (headers request).
Proof.
  intros Hw Hin.
  assert (Hsent : Forall sent_ok (tasks w)).
  { clear Hin. revert w Hw. apply (reachable_ind (fun w => Forall sent_ok (tasks w))).
    - intros saved vs. constructor.
    - apply step_sent_ok. }
  assert (Henv : seeded (messages env)).
  { destruct Hw as (saved & vs & events & Hrun).
    destruct (run_ok events _ _ (init_ok saved vs) Hrun) as [_ Hts].
    rewrite Forall_forall in Hts. apply (Hts _ Hin). }
  rewrite Forall_forall in Hsent.
  destruct (Hsent _ Hin) as (text & -> & Ht & Hk).
  destruct Henv as (rest & Hm & Hrest).
  exists rest, text. simpl. rewrite Hm.
  repeat split; auto.
Qed.

Lemma requests_in_flight_well_formed_witness :
  let w := setInputText "Hello" (init (Some "sk-test") []) in
  exists (history : list Message) (text : string),
    body_messages (requestFor (ui w) "Hello")
    = systemMessage :: history ++ [{| role := user; content := text |}]
    /\ JS.trim text <> "".
Proof.
  intros w.
  destruct (requests_in_flight_well_formed (handleSend (ui w) None w) (ui w)
              (requestFor (ui w) "Hello"))
    as (history & text & Hbody & _ & Htext & _).
  - exists (Some "sk-test"), [], [ChangeInput "Hello"; ClickSend].
    vm_compute. reflexivity.
  - vm_compute. left. reflexivity.
  - exists history, text. split; assumption.
Defined.

(** ** Recording *)

(** X12.  With the Record button enabled and nothing being recorded, a
    first click starts the recording and changes nothing else, and while
    it lasts the text field and the Send button are disabled; the next
    click ends it and starts exactly one transcription, of the buffer the
    recorder yields, by the handler of that render, with the busy flag set
    and the conversation as it was. *)
Theorem record_button_two_clicks (w : World) (ignored captured : AudioBuffer) :
  recordDisabled w = false ->
  isRecording w = false ->
  exists recording transcribing : World,
    step w (ClickRecord ignored) = Some recording
    /\ isRecording recording = true
    /\ ui recording = ui w
    /\ tasks recording = tasks w
    /\ log recording = log w
    /\ step recording ClickSend = None
    /\ (forall value : string, step recording (ChangeInput value) = None)
    /\ step recording (ClickRecord captured) = Some transcribing
    /\ isRecording transcribing = false
    /\ tasks transcribing = tasks w ++ [AwaitTranscriber (ui w) captured]
    /\ isLoading (ui transcribing) = true
    /\ messages (ui transcribing) = messages (ui w)
    /\ log transcribing = log w ++ [ETranscriberStart captured].
Proof.
  intros Hen Hrec.
  exists (startRecording w).
  exists (handleTranscription (ui w) captured (stopRecording (startRecording w))).
  assert (H1 : step w (ClickRecord ignored) = Some (startRecording w)).
  { unfold step, handleRecordButtonClick. rewrite Hen, Hrec. reflexivity. }
  assert (Hen' : recordDisabled (startRecording w) = false) by exact Hen.
  split; [exact H1|]. split; [reflexivity|]. split; [reflexivity|].
  split; [reflexivity|]. split; [reflexivity|].
  split.
  { unfold step, sendDisabled. cbn [isRecording startRecording with_isRecording].
    rewrite orb_true_r. reflexivity. }
  split.
  { intros value. unfold step, inputDisabled.
    cbn [isRecording startRecording with_isRecording].
    rewrite orb_true_r. reflexivity. }
  split.
  { unfold step, handleRecordButtonClick. rewrite Hen'. reflexivity. }
  repeat split.
Qed.

Lemma record_button_two_clicks_witness :
  let w := init (Some "sk-test") [] in
  exists recording transcribing : World,
    step w (ClickRecord 0) = Some recording
    /\ step recording ClickSend = None
    /\ step recording (ClickRecord 1) = Some transcribing
    /\ tasks transcribing = [AwaitTranscriber (ui w) 1]
    /\ isLoading (ui transcribing) = true.
Proof.
  intros w.
  destruct (record_button_two_clicks w 0 1)
    as (recording & transcribing & H1 & _ & _ & _ & _ & H2 & _ & H3 & _ & H4 & H5 & _).
  - reflexivity.
  - reflexivity.
  - exists recording, transcribing. repeat split; assumption.
Defined.

(** ** Witnesses of the properties of reachable pages *)

Lemma reachable_system_message_first_witness :
  let w := setInputText "Hello" (init (Some "sk-test") []) in
  exists rest : list Message,
    messages (ui (handleSend (ui w) None w)) = systemMessage :: rest
    /\ rendered (ui (handleSend (ui w) None w)) = rest
    /\ Forall (fun m => role m <> system) rest.
Proof.
  intros w. apply (reachable_system_message_first (handleSend (ui w) None w)).
  exists (Some "sk-test"), [], [ChangeInput "Hello"; ClickSend].
  vm_compute. reflexivity.
Defined.

Lemma step_extends_unless_transcribed_witness :
  let w := setInputText "Hello" (init (Some "sk-test") []) in
  extends (messages (ui (handleSend (ui w) None w))) (messages (ui w))
  \/ exists k t, ClickSend = TranscriberSettles k (Transcribed t).
Proof.
  intros w. apply (step_extends_unless_transcribed w (handleSend (ui w) None w) ClickSend).
  reflexivity.
Defined.

Lemma typed_run_one_guarded_request_witness :
  let w := init (Some "sk-test") [] in
  let sent := handleSend (ui (setInputText "Hello" w)) None (setInputText "Hello" w) in
  one_guarded_request sent.
Proof.
  intros w sent.
  apply (typed_run_one_guarded_request [ChangeInput "Hello"; ClickSend] w sent).
  - reflexivity.
  - left. reflexivity.
  - vm_compute. reflexivity.
Defined.

(** ** The preferred voice *)

Lemma substring_substring (s : string) :
  forall m n i k : nat,
    i + k <= n -> substring i k (substring m n s) = substring (m + i) k s.
Proof.
  induction s as [|c s IH]; intros m n i k H.
  - destruct m, n, i, k; reflexivity.
  - destruct m as [|m].
    + destruct n as [|n].
      * destruct i; [destruct k; [reflexivity|] |]; inversion H.
      * destruct i as [|i].
        -- destruct k as [|k]; [reflexivity|]. simpl. f_equal.
           apply (IH 0 n 0 k). simpl in H. apply le_S_n, H.
        -- simpl. apply (IH 0 n i k). simpl in H. apply le_S_n, H.
    + simpl. apply IH, H.
Qed.

(** A string that contains [big] contains every part of [big]. *)
Lemma includes_part (s big part : string) (i : nat) :
  part <> "" ->
  i + String.length part <= String.length big ->
  substring i (String.length part) big = part ->
  JS.includes s big = true -> JS.includes s part = true.
Proof.
  intros Hne Hlen Hpart. unfold JS.includes.
  destruct (index 0 big s) as [m|] eqn:Hbig; [intros _ | discriminate].
  destruct (index 0 part s) as [p|] eqn:Hp; [reflexivity|].
  exfalso. apply (index_correct3 0 (m + i) part s Hp Hne (Nat.le_0_l _)).
  rewrite <- (substring_substring s m (String.length big) i (String.length part) Hlen).
  rewrite (index_correct1 0 m big s Hbig). exact Hpart.
Qed.

(** X13.  A voice is preferred exactly when its name contains "female" or
    "Female": the third test, for "Google UK English Female", never
    decides, since such a name contains "Female". *)
Theorem isFemale_third_test_never_decides (voice : Voice) :
  isFemale voice
  = JS.includes (name voice) "female" || JS.includes (name voice) "Female".
Proof.
  unfold isFemale.
  destruct (JS.includes (name voice) "Google UK English Female") eqn:Hbig;
    [|apply orb_false_r].
  assert (H : JS.includes (name voice) "Female" = true).
  { apply (includes_part (name voice) "Google UK English Female" "Female" 18);
      [discriminate | simpl; auto | reflexivity | exact Hbig]. }
  rewrite H, !orb_true_r. reflexivity.
Qed.

(** ** The speaking indicator *)

Lemma speakText_keeps_indicator (env : State) (text : string) (w : World) :
  (isSpeaking (ui w) = true -> synth_queue w <> []) ->
  isSpeaking (ui (speakText env text w)) = true ->
  synth_queue (speakText env text w) <> [].
Proof.
  intros IH. rewrite speakText_ui. destruct (speechEnabled env) eqn:He.
  - rewrite (speakText_queue_enabled env text w He). discriminate.
  - rewrite (speakText_queue_disabled env text w He). exact IH.
Qed.

Lemma step_keeps_indicator (w w' : World) (e : Event) :
  (isSpeaking (ui w) = true -> synth_queue w <> []) ->
  step w e = Some w' ->
  isSpeaking (ui w') = true -> synth_queue w' <> [].
Proof.
  intros IH Hstep. destruct e; simpl in Hstep.
  - destruct (inputDisabled w); [discriminate|]. injection Hstep as <-. exact IH.
  - destruct (sendDisabled w); [discriminate|]. injection Hstep as <-.
    rewrite handleSend_cases. repeat destruct (negb _); exact IH.
  - destruct (recordDisabled w); [discriminate|]. injection Hstep as <-.
    unfold handleRecordButtonClick. destruct (isRecording w); exact IH.
  - injection Hstep as <-. exact IH.
  - injection Hstep as <-. unfold toggleSpeech, seq, when.
    destruct (_ && _); [discriminate | exact IH].
  - destruct (nth_error (rendered (ui w)) index) as [msg|]; [|discriminate].
    destruct (role msg); try discriminate. injection Hstep as <-.
    apply speakText_keeps_indicator, IH.
  - destruct (nth_error (tasks w) task) as [[env b|env r]|]; try discriminate.
    injection Hstep as <-. unfold handleTranscription_resume.
    destruct outcome as [t|]; unfold seq; [|exact IH].
    cbn [ui synth_queue setIsLoading on_ui isSpeaking with_isLoading].
    rewrite handleSend_cases. repeat destruct (negb _); exact IH.
  - destruct (nth_error (tasks w) task) as [[env b|env r]|]; try discriminate.
    injection Hstep as <-. unfold handleSend_resume.
    destruct outcome as [[[|first rest]]|]; unfold seq; cbn [choices]; try exact IH.
    match goal with
    | |- context [speakText ?e ?c ?y] =>
      exact (speakText_keeps_indicator e c y IH)
    end.
  - destruct (speaking w) eqn:Hs; [|discriminate]. injection Hstep as <-.
    intros _. unfold speaking in Hs. simpl.
    destruct (synth_queue w); [discriminate Hs | discriminate].
  - destruct (synth_queue w); [discriminate|]. injection Hstep as <-. discriminate.
  - destruct (synth_queue w); [discriminate|]. injection Hstep as <-. discriminate.
  - injection Hstep as <-. exact IH.
Qed.

(** X14.  With the synthesizer calling [onstart] for an utterance it
    holds and [onend] or [onerror] when the utterance leaves it, the
    speaking indicator is shown on a page that can be reached only while
    the synthesizer holds an utterance: [toggleSpeech] clears the
    indicator when it cancels, and [speakText] puts a new utterance in the
    place of the one it cancels. *)
Theorem indicator_only_while_speaking (w : World) :
  reachable w -> isSpeaking (ui w) = true -> speaking w = true.
Proof.
  intros Hw Hs.
  assert (H : isSpeaking (ui w) = true -> synth_queue w <> []).
  { clear Hs. revert w Hw.
    apply (reachable_ind (fun w => isSpeaking (ui w) = true -> synth_queue w <> [])).
    - intros [k|] vs; [destruct (JS.truthy k) eqn:E; simpl; rewrite ?E|];
        discriminate.
    - apply step_keeps_indicator. }
  unfold speaking. destruct (synth_queue w); [now elim (H Hs) | reflexivity].
Qed.

Lemma indicator_only_while_speaking_witness :
  exists w : World,
    run (init (Some "sk-test") [])
      [ChangeInput "Hello"; ClickSend;
       AxiosSettles 0 (Fulfilled {| choices :=
         [{| message := {| role := assistant; content := "Hi there." |} |}] |});
       UtteranceStarts] = Some w
    /\ isSpeaking (ui w) = true
    /\ speaking w = true.
Proof.
  eexists. split; [vm_compute; reflexivity|].
  split; [reflexivity|].
  apply indicator_only_while_speaking; [|reflexivity].
  exists (Some "sk-test"), [],
    [ChangeInput "Hello"; ClickSend;
     AxiosSettles 0 (Fulfilled {| choices :=
       [{| message := {| role := assistant; content := "Hi there." |} |}] |});
     UtteranceStarts].
  vm_compute. reflexivity.
Defined.

(** * Handlers of a render that is out of date

    [handleTranscription] calls [handleSend] after its [await].  The
    [handleSend] it calls is the one of the render in which the recording
    ended: it reads the conversation, the key and the speech flag of that
    render, whatever the page holds by then. *)

(** C1.  An invocation of [handleSend] with a text that is not blank, on
    a page that holds a key, need not leave one user message followed by
    one assistant message.  With the key typed while the transcription
    runs, [handleSend] reads the empty key of its render: it alerts and the
    conversation gains no message.  With a reply arrived since its render,
    [handleSend] sets the conversation from its render: the user message
    takes the place of the reply and the conversation is no longer. *)
Theorem late_handleSend_not_one_user_one_assistant :
  (exists keyed : World,
     run (init None [])
       [ClickRecord 0; ClickRecord 1; ChangeApiKey "sk-test";
        TranscriberSettles 0 (Transcribed "Hello")] = Some keyed
     /\ apiKey (ui keyed) = "sk-test"
     /\ messages (ui keyed) = [systemMessage]
     /\ tasks keyed = []
     /\ isLoading (ui keyed) = false
     /\ log keyed
        = [ETranscriberStart 1; EStorageSet "openai_api_key" "sk-test";
           ETranscriberSettled (Transcribed "Hello");
           EAlert "Please enter your OpenAI API key first."])
  /\ exists before after : World,
       run (init (Some "sk-test") [])
         [ClickRecord 0; ClickRecord 1; TranscriberSettles 0 (Transcribed "first");
          ClickRecord 0; ClickRecord 2;
          AxiosSettles 0
            (Fulfilled {| choices :=
               [{| message := {| role := assistant; content := "reply" |} |}] |})]
       = Some before
       /\ step before (TranscriberSettles 0 (Transcribed "second")) = Some after
       /\ messages (ui before)
          = [systemMessage; {| role := user; content := "first" |};
             {| role := assistant; content := "reply" |}]
       /\ messages (ui after)
          = [systemMessage; {| role := user; content := "first" |};
             {| role := user; content := "second" |}]
       /\ length (messages (ui after)) = length (messages (ui before)).
Proof.
  split.
  - eexists. split; [vm_compute; reflexivity|].
    repeat split; vm_compute; reflexivity.
  - do 2 eexists. split; [vm_compute; reflexivity|].
    split; [vm_compute; reflexivity|].
    repeat split; vm_compute; reflexivity.
Qed.

(** C8.  With the key erased while the transcription runs, neither the
    page nor local storage holds a key when [handleSend] runs, and yet it
    does not abort: it reads the key of its render, appends the user
    message and sends the request with the erased key as bearer
    credential, without alerting. *)
Theorem erased_key_request_still_sent :
  exists sent : World,
    run (init (Some "sk-test") [])
      [ClickRecord 0; ClickRecord 1; ChangeApiKey "";
       TranscriberSettles 0 (Transcribed "Hello")] = Some sent
    /\ apiKey (ui sent) = ""
    /\ storage sent = Some ""
    /\ messages (ui sent) = [systemMessage; {| role := user; content := "Hello" |}]
    /\ (exists (env : State) (request : Request),
          tasks sent = [AwaitAxios env request]
          /\ headers request
             = [("Content-Type", "application/json");
                ("Authorization", "Bearer sk-test")])
    /\ Forall (fun e => match e with EAlert _ => False | _ => True end) (log sent).
Proof.
  eexists. split; [vm_compute; reflexivity|].
  split; [reflexivity|]. split; [reflexivity|]. split; [reflexivity|].
  split; [do 2 eexists; split; reflexivity|].
  vm_compute. repeat constructor.
Qed.

(** C9.  With speech turned off after a click on Send and before the
    reply arrives, speech is disabled on the page when [handleSend] calls
    [speakText], and [speakText] is no no-op: it reads the flag of the
    render of the click and queues the reply as an utterance. *)
Theorem reply_spoken_on_muted_page :
  exists muted spoken : World,
    run (init (Some "sk-test") [])
      [ChangeInput "Hello"; ClickSend; ClickSpeechToggle] = Some muted
    /\ speechEnabled (ui muted) = false
    /\ synth_queue muted = []
    /\ step muted
         (AxiosSettles 0
            (Fulfilled {| choices :=
               [{| message := {| role := assistant; content := "Hi there." |} |}] |}))
       = Some spoken
    /\ speechEnabled (ui spoken) = false
    /\ synth_queue spoken
       = [{| utterance_text := "Hi there."; utterance_voice := None |}]
    /\ exists before : list Effect,
         log spoken
         = before
           ++ [ESynthSpeak {| utterance_text := "Hi there."; utterance_voice := None |}].
Proof.
  do 2 eexists. split; [vm_compute; reflexivity|].
  split; [reflexivity|]. split; [reflexivity|].
  split; [vm_compute; reflexivity|].
  split; [reflexivity|]. split; [reflexivity|].
  eexists. vm_compute.
  match goal with
  | |- ?a :: ?b :: ?c :: ?d :: ?e :: nil = _ => instantiate (1 := [a; b; c; d])
  end.
  reflexivity.
Qed.
